(** * A shallow embedding of [backend/server.py]

    The server is a FastAPI application with four routes under [/api],
    backed by two MongoDB collections, [status_checks] and [trust_metrics].
    Handlers are embedded as computations in a state-and-exception monad
    over a [World]: the contents of the two collections, the log of store
    calls issued so far, and the positions reached in the ambient sources
    the handlers draw from (entropy for [uuid.uuid4], the clock for
    [datetime.utcnow], the driver's [ObjectId] generator, the availability
    of the store at each call, and the place the store gives each new
    document in its own order).  A collection holds its documents as the
    store keeps them: as BSON, with datetimes to the millisecond. *)

From Stdlib Require Import List String Ascii ZArith NArith Bool Arith Lia.
From Stdlib Require Import Permutation.
Import ListNotations.
Open Scope string_scope.
Set Warnings "-register-all".

(** ** Documents *)

(** Python / BSON / JSON values as they travel between the handlers, the
    driver and the request parser.  A [datetime] is its number of
    microseconds since the epoch; a [dict] is an association list in
    insertion order. *)
Inductive value : Type :=
| VNone
| VBool (b : bool)
| VInt (z : Z)
| VStr (s : string)
| VDate (t : Z)
| VOid (o : N)
| VList (l : list value)
| VDoc (d : list (string * value)).

Definition doc : Type := list (string * value).

(** [d.get(k)] *)
Fixpoint get (k : string) (d : doc) : option value :=
  match d with
  | [] => None
  | (k', v) :: d' => if String.eqb k' k then Some v else get k d'
  end.

(** [d.pop(k, None)], keeping only the dictionary that is left. *)
Definition pop (k : string) (d : doc) : doc :=
  filter (fun kv => negb (String.eqb (fst kv) k)) d.

(** [[k for k in d]] *)
Definition keys (d : doc) : list string := map fst d.

(** ** What the store keeps of a document *)

(** A [datetime] is stored as a BSON date, a count of milliseconds: the
    driver drops what is below the millisecond ([microsecond // 1000]). *)
Definition millis (t : Z) : Z := (1000 * (t / 1000))%Z.

(** A value after the trip through BSON: every [datetime] in it, at any
    depth, is cut to the millisecond; the rest is kept. *)
Fixpoint bson (v : value) : value :=
  match v with
  | VDate t => VDate (millis t)
  | VList l => VList (map bson l)
  | VDoc d => VDoc (map (fun kv : string * value => let (k, x) := kv in (k, bson x))
                   d)
  | _ => v
  end.

Definition bson_doc (d : doc) : doc :=
  map (fun kv : string * value => let (k, x) := kv in (k, bson x)) d.

(** A collection is held in the store's own order, the one [find] follows
    when no sort is asked for.  Where a new document comes in that order
    is the store's business: [place back d l] puts [d] in front of the
    last [back] documents of [l], and leaves those of [l] in their
    order. *)
Definition place (back : nat) (d : doc) (l : list doc) : list doc :=
  firstn (List.length l - back) l ++ d :: skipn (List.length l - back) l.

(** ** [uuid.uuid4] and [str(UUID)] *)

Definition hex_digit (n : N) : ascii :=
  match String.get (N.to_nat n) "0123456789abcdef" with
  | Some c => c
  | None => "0"%char
  end.

(** The [width] lowest hexadecimal digits of [n], most significant first,
    in front of [acc]. *)
Fixpoint hex_acc (width : nat) (n : N) (acc : string) : string :=
  match width with
  | O => acc
  | S k => hex_acc k (N.shiftr n 4) (String (hex_digit (N.land n 15)) acc)
  end.

(** ['%032x' % n], for [n] below [2^128]. *)
Definition hex32 (n : N) : string := hex_acc 32 n "".

(** [UUID(bytes=b, version=4).int], where [r] is [int.from_bytes(b)]:
    the variant bits are set to RFC 4122 and the version nibble to 4. *)
Definition uuid4_int (r : N) : N :=
  let i := N.land r (N.ones 128) in
  let i := N.ldiff i (N.shiftl 0xc000 48) in
  let i := N.lor i (N.shiftl 0x8000 48) in
  let i := N.ldiff i (N.shiftl 0xf000 64) in
  N.lor i (N.shiftl 4 76).

(** [UUID.__str__] *)
Definition uuid_str (i : N) : string :=
  let h := hex32 i in
  substring 0 8 h ++ "-" ++ substring 8 4 h ++ "-" ++ substring 12 4 h
    ++ "-" ++ substring 16 4 h ++ "-" ++ substring 20 12 h.

(** ** Models *)

Module StatusCheck.
Record t : Type := mk { id : string; client_name : string; timestamp : Z }.

(** [StatusCheck.dict()] *)
Definition dict (s : t) : doc :=
  [("id", VStr (id s)); ("client_name", VStr (client_name s));
   ("timestamp", VDate (timestamp s))].
End StatusCheck.

Module StatusCheckCreate.
Record t : Type := mk { client_name : string }.

Definition dict (s : t) : doc := [("client_name", VStr (client_name s))].
End StatusCheckCreate.

Module MetricItem.
Record t : Type :=
  mk { key : string; label : string; value : string; icon : option string }.

Definition dict (m : t) : doc :=
  [("key", VStr (key m)); ("label", VStr (label m));
   ("value", VStr (value m));
   ("icon", match icon m with Some s => VStr s | None => VNone end)].
End MetricItem.

Module TrustMetrics.
Record t : Type :=
  mk { id : string; items : list MetricItem.t; updated_at : Z }.

Definition dict (m : t) : doc :=
  [("id", VStr (id m));
   ("items", VList (map (fun i => VDoc (MetricItem.dict i)) (items m)));
   ("updated_at", VDate (updated_at m))].
End TrustMetrics.

(** The field validators of pydantic that the models rely on.  How values
    of another type are coerced (or refused) differs between pydantic
    releases and is left open; a [str] is accepted for a [str] field and a
    [datetime] for a [datetime] field in all of them. *)
Class Pydantic : Type := {
  str_validator : value -> option string;
  datetime_validator : value -> option Z;
  str_validator_str : forall s, str_validator (VStr s) = Some s;
  datetime_validator_datetime : forall t, datetime_validator (VDate t) = Some t
}.

(** ** The store and the world *)

Inductive collection : Type := status_checks | trust_metrics.

Record Store : Type := mkStore {
  db_status_checks : list doc;
  db_trust_metrics : list doc
}.

Definition coll (c : collection) (s : Store) : list doc :=
  match c with
  | status_checks => db_status_checks s
  | trust_metrics => db_trust_metrics s
  end.

Definition set_coll (c : collection) (l : list doc) (s : Store) : Store :=
  match c with
  | status_checks => mkStore l (db_trust_metrics s)
  | trust_metrics => mkStore (db_status_checks s) l
  end.

Inductive call : Type :=
| InsertOne
| FindOne
| FindToList (length : nat).

(** One store call: the collection, the operation, and whether the store
    answered. *)
Record event : Type := mkEvent {
  ev_coll : collection;
  ev_call : call;
  ev_ok : bool
}.

(** What the handlers take from their surroundings.  [urandom k] is the
    [k]-th 16-byte draw of [os.urandom] read as a big-endian integer,
    [utcnow k] the [k]-th reading of the clock, [objectid k] the [k]-th
    [ObjectId] of the driver, [store_up k] tells whether the [k]-th call
    to the store is answered, and [placement k] is how many documents of
    the collection the store orders after the document that the [k]-th
    call inserts. *)
Record Env : Type := mkEnv {
  urandom : nat -> N;
  utcnow : nat -> Z;
  objectid : nat -> N;
  store_up : nat -> bool;
  placement : nat -> nat
}.

(** The collections, how many draws were taken from each source of [Env],
    and the store calls issued so far, oldest first. *)
Record World : Type := mkWorld {
  db : Store;
  n_urandom : nat;
  n_utcnow : nat;
  n_objectid : nat;
  n_store : nat;
  trace : list event
}.

Inductive error : Type := StoreUnavailable | ValidationError.

Inductive result (A : Type) : Type :=
| Ok (a : A)
| Raise (e : error).
Arguments Ok {A} a.
Arguments Raise {A} e.

(** A handler step: it either returns or raises, and leaves a world. *)
Definition M (A : Type) : Type := World -> result A * World.

Definition ret {A} (a : A) : M A := fun w => (Ok a, w).

Definition raise {A} (e : error) : M A := fun w => (Raise e, w).

Definition bind {A B} (m : M A) (f : A -> M B) : M B :=
  fun w =>
    match m w with
    | (Ok a, w') => f a w'
    | (Raise e, w') => (Raise e, w')
    end.

Notation "x <- m ;; k" := (bind m (fun x => k))
  (at level 61, m at next level, right associativity).
Notation "m ;;; k" := (bind m (fun _ => k))
  (at level 61, right associativity).

Fixpoint mapM {A B} (f : A -> M B) (l : list A) : M (list B) :=
  match l with
  | [] => ret []
  | a :: l' => b <- f a ;; bs <- mapM f l' ;; ret (b :: bs)
  end.

(** ** The application *)

Section Server.
Context {P : Pydantic} (E : Env).

(** *** Ambient sources *)

(** [uuid.uuid4()] *)
Definition uuid4 : M N :=
  fun w =>
    (Ok (uuid4_int (urandom E (n_urandom w))),
     mkWorld (db w) (S (n_urandom w)) (n_utcnow w) (n_objectid w)
             (n_store w) (trace w)).

(** [lambda: str(uuid.uuid4())] *)
Definition new_id : M string := u <- uuid4 ;; ret (uuid_str u).

(** [datetime.utcnow()] *)
Definition datetime_utcnow : M Z :=
  fun w =>
    (Ok (utcnow E (n_utcnow w)),
     mkWorld (db w) (n_urandom w) (S (n_utcnow w)) (n_objectid w)
             (n_store w) (trace w)).

(** [ObjectId()] *)
Definition ObjectId : M N :=
  fun w =>
    (Ok (objectid E (n_objectid w)),
     mkWorld (db w) (n_urandom w) (n_utcnow w) (S (n_objectid w))
             (n_store w) (trace w)).

(** *** The driver *)

(** One round trip to the store: it is logged, and raises when the store
    does not answer. *)
Definition store_call (c : collection) (k : call) : M unit :=
  fun w =>
    let up := store_up E (n_store w) in
    let w' := mkWorld (db w) (n_urandom w) (n_utcnow w) (n_objectid w)
                      (S (n_store w)) (trace w ++ [mkEvent c k up]) in
    if up then (Ok tt, w') else (Raise StoreUnavailable, w').

Definition write (c : collection) (l : list doc) : M unit :=
  fun w =>
    (Ok tt,
     mkWorld (set_coll c l (db w)) (n_urandom w) (n_utcnow w)
             (n_objectid w) (n_store w) (trace w)).

Definition read (c : collection) : M (list doc) :=
  fun w => (Ok (coll c (db w)), w).

(** The number of store calls made so far. *)
Definition calls_so_far : M nat := fun w => (Ok (n_store w), w).

(** [await db.<c>.insert_one(d)].  The driver gives the document an
    [_id] when it has none, before it talks to the store; the document
    is stored as BSON, with [_id] as its first field, at the place the
    store gives it among the documents of the collection.  (The unique
    index on [_id] is not modelled: the handlers never choose an [_id]
    themselves.) *)
Definition insert_one (c : collection) (d : doc) : M unit :=
  i <- match get "_id" d with
       | Some v => ret v
       | None => o <- ObjectId ;; ret (VOid o)
       end ;;
  k <- calls_so_far ;;
  store_call c InsertOne ;;;
  l <- read c ;;
  write c (place (placement E k) (bson_doc (("_id", i) :: pop "_id" d)) l).

(** [await db.<c>.find_one()]: the first document in the store's order.
    The document comes back as the store holds it. *)
Definition find_one (c : collection) : M (option doc) :=
  store_call c FindOne ;;;
  l <- read c ;;
  ret (hd_error l).

(** [await db.<c>.find().to_list(length)] *)
Definition find_to_list (c : collection) (length : nat) : M (list doc) :=
  store_call c (FindToList length) ;;;
  l <- read c ;;
  ret (firstn length l).

(** *** Model construction

    [Model(kwargs)], with the keyword arguments given as a dictionary. *)

(** A required field. *)
Definition field_required {A} (k : string) (validator : value -> option A)
    (kwargs : doc) : option A :=
  match get k kwargs with
  | Some v => validator v
  | None => None
  end.

(** A field with a [default_factory]: the factory runs when the field is
    not given, whatever becomes of the other fields. *)
Definition field_default_factory {A} (k : string)
    (validator : value -> option A) (factory : M A) (kwargs : doc)
    : M (option A) :=
  match get k kwargs with
  | Some v => ret (validator v)
  | None => a <- factory ;; ret (Some a)
  end.

(** [Optional[str] = None] *)
Definition optional_str_validator (v : value) : option (option string) :=
  match v with
  | VNone => Some None
  | _ => option_map Some (str_validator v)
  end.

Definition field_optional_str (k : string) (kwargs : doc)
    : option (option string) :=
  match get k kwargs with
  | Some v => optional_str_validator v
  | None => Some None
  end.

(** [StatusCheck(kwargs)]; fields other than the model's are ignored. *)
Definition StatusCheck_init (kwargs : doc) : M StatusCheck.t :=
  i <- field_default_factory "id" str_validator new_id kwargs ;;
  let c := field_required "client_name" str_validator kwargs in
  t <- field_default_factory "timestamp" datetime_validator
         datetime_utcnow kwargs ;;
  match i, c, t with
  | Some i, Some c, Some t => ret (StatusCheck.mk i c t)
  | _, _, _ => raise ValidationError
  end.

(** [StatusCheckCreate(kwargs)] *)
Definition StatusCheckCreate_init (kwargs : doc)
    : M StatusCheckCreate.t :=
  match field_required "client_name" str_validator kwargs with
  | Some c => ret (StatusCheckCreate.mk c)
  | None => raise ValidationError
  end.

(** [MetricItem(kwargs)]; the model has no default factory. *)
Definition MetricItem_init (kwargs : doc) : option MetricItem.t :=
  match field_required "key" str_validator kwargs,
        field_required "label" str_validator kwargs,
        field_required "value" str_validator kwargs,
        field_optional_str "icon" kwargs with
  | Some k, Some l, Some v, Some i => Some (MetricItem.mk k l v i)
  | _, _, _, _ => None
  end.

(** A [MetricItem] field: a dictionary, or a model instance, which
    travels as its dictionary. *)
Definition MetricItem_validator (v : value) : option MetricItem.t :=
  match v with
  | VDoc d => MetricItem_init d
  | _ => None
  end.

Fixpoint all_some {A} (l : list (option A)) : option (list A) :=
  match l with
  | [] => Some []
  | Some a :: l' => option_map (cons a) (all_some l')
  | None :: _ => None
  end.

(** [List[MetricItem]] *)
Definition items_validator (v : value) : option (list MetricItem.t) :=
  match v with
  | VList l => all_some (map MetricItem_validator l)
  | _ => None
  end.

(** [TrustMetrics(kwargs)] *)
Definition TrustMetrics_init (kwargs : doc) : M TrustMetrics.t :=
  i <- field_default_factory "id" str_validator new_id kwargs ;;
  let l := field_required "items" items_validator kwargs in
  t <- field_default_factory "updated_at" datetime_validator
         datetime_utcnow kwargs ;;
  match i, l, t with
  | Some i, Some l, Some t => ret (TrustMetrics.mk i l t)
  | _, _, _ => raise ValidationError
  end.

(** *** Routes *)

(** [GET /api/] *)
Definition root : M doc := ret [("message", VStr "Hello World")].

(** [POST /api/status] *)
Definition create_status_check (input : StatusCheckCreate.t)
    : M StatusCheck.t :=
  let status_dict := StatusCheckCreate.dict input in
  status_obj <- StatusCheck_init status_dict ;;
  insert_one status_checks (StatusCheck.dict status_obj) ;;;
  ret status_obj.

(** [GET /api/status] *)
Definition get_status_checks : M (list StatusCheck.t) :=
  status_checks <- find_to_list status_checks 1000 ;;
  mapM StatusCheck_init status_checks.

(** The four hardcoded items of the default document. *)
Definition default_items : list MetricItem.t :=
  [MetricItem.mk "rating" "تقييم العملاء" "4.9/5" (Some "Star");
   MetricItem.mk "shipments" "عمليات الشحن" "120K+" (Some "Zap");
   MetricItem.mk "downloads" "عدد التحميلات" "85K+" (Some "Download");
   MetricItem.mk "uptime" "زمن الاستجابة" "1.2s" (Some "Gauge")].

(** [not doc], for the result of [find_one]: [None] and the empty
    dictionary are false. *)
Definition not_doc (doc : option doc) : bool :=
  match doc with
  | None => true
  | Some [] => true
  | Some (_ :: _) => false
  end.

(** [GET /api/metrics] *)
Definition get_metrics : M TrustMetrics.t :=
  doc <- find_one trust_metrics ;;
  if not_doc doc then
    default <- TrustMetrics_init
                 [("items",
                   VList (map (fun i => VDoc (MetricItem.dict i))
                              default_items))] ;;
    insert_one trust_metrics (TrustMetrics.dict default) ;;;
    ret default
  else
    let doc := pop "_id" (match doc with Some d => d | None => [] end) in
    TrustMetrics_init doc.

(** *** The routing table *)

Inductive request : Type :=
| GET_root
| POST_status (body : value)
| GET_status
| GET_metrics.

Inductive response : Type :=
| Json (d : doc)
| AStatusCheck (s : StatusCheck.t)
| StatusChecks (l : list StatusCheck.t)
| ATrustMetrics (m : TrustMetrics.t).

(** The request body is parsed into the handler's argument before the
    handler runs; a body that is not a JSON object is refused. *)
Definition parse_body (body : value) : M StatusCheckCreate.t :=
  match body with
  | VDoc d => StatusCheckCreate_init d
  | _ => raise ValidationError
  end.

Definition handle (r : request) : M response :=
  match r with
  | GET_root => d <- root ;; ret (Json d)
  | POST_status body =>
      input <- parse_body body ;;
      s <- create_status_check input ;;
      ret (AStatusCheck s)
  | GET_status => l <- get_status_checks ;; ret (StatusChecks l)
  | GET_metrics => m <- get_metrics ;; ret (ATrustMetrics m)
  end.

End Server.

(** ** Reading the outcome of a run *)

(** The store calls that [m] issues when run in [w]. *)
Definition calls {A} (m : M A) (w : World) : list event :=
  skipn (List.length (trace w)) (trace (snd (m w))).

(** The store answers the next [n] calls. *)
Definition store_answers (E : Env) (w : World) (n : nat) : Prop :=
  forall k, k < n -> store_up E (n_store w + k) = true.

(** A stored document whose [id], [client_name] and [timestamp] have the
    types of the [StatusCheck] model, read as that record. *)
Definition StatusCheck_of_doc (d : doc) : option StatusCheck.t :=
  match get "id" d, get "client_name" d, get "timestamp" d with
  | Some (VStr i), Some (VStr c), Some (VDate t) =>
      Some (StatusCheck.mk i c t)
  | _, _, _ => None
  end.

Definition is_StatusCheck_doc (d : doc) : bool :=
  match StatusCheck_of_doc d with Some _ => true | None => false end.

(** Two worlds with the same collections and the same log of store calls. *)
Definition same_store_side (w w' : World) : Prop :=
  db w' = db w /\ n_store w' = n_store w /\ trace w' = trace w.

(** A [StatusCheck] and a [TrustMetrics] as they are read back from the
    store: the same, with the datetime cut to the millisecond. *)
Definition StatusCheck_stored (s : StatusCheck.t) : StatusCheck.t :=
  StatusCheck.mk (StatusCheck.id s) (StatusCheck.client_name s)
    (millis (StatusCheck.timestamp s)).

Definition TrustMetrics_stored (m : TrustMetrics.t) : TrustMetrics.t :=
  TrustMetrics.mk (TrustMetrics.id m) (TrustMetrics.items m)
    (millis (TrustMetrics.updated_at m)).

(** The default document built from the draws that [w] is about to yield. *)
Definition default_metrics (E : Env) (w : World) : TrustMetrics.t :=
  TrustMetrics.mk (uuid_str (uuid4_int (urandom E (n_urandom w))))
    default_items (utcnow E (n_utcnow w)).

(** The record [POST /api/status] builds for [name] in [w]. *)
Definition new_status_check (E : Env) (name : string) (w : World)
    : StatusCheck.t :=
  StatusCheck.mk (uuid_str (uuid4_int (urandom E (n_urandom w)))) name
    (utcnow E (n_utcnow w)).

(** [w] after one answered or unanswered store call. *)
Definition logged (E : Env) (c : collection) (k : call) (w : World)
    : World :=
  mkWorld (db w) (n_urandom w) (n_utcnow w) (n_objectid w) (S (n_store w))
    (trace w ++ [mkEvent c k (store_up E (n_store w))]).

(** The records of a response of [GET /status]. *)
Definition listed (r : result response * World) : list StatusCheck.t :=
  match fst r with
  | Ok (StatusChecks l) => l
  | _ => []
  end.

(** ** A concrete setting to run the handlers in *)

(** Validators that accept exactly the field's own type. *)
Definition strict_str_validator (v : value) : option string :=
  match v with VStr s => Some s | _ => None end.

Definition strict_datetime_validator (v : value) : option Z :=
  match v with VDate t => Some t | _ => None end.

Definition strict : Pydantic :=
  {| str_validator := strict_str_validator;
     datetime_validator := strict_datetime_validator;
     str_validator_str := fun s => eq_refl;
     datetime_validator_datetime := fun t => eq_refl |}.

(** A store that always answers and keeps its documents in the order it
    received them, a clock that ticks once a second from 2024-01-01, and
    entropy that changes with every draw. *)
Definition calm : Env :=
  {| urandom := fun k => (N.of_nat k * 0x9e3779b97f4a7c15f39cc0605cedc835
                          + 0x0123456789abcdef0123456789abcdef)%N;
     utcnow := fun k => (1704067200000000 + Z.of_nat k * 1000000)%Z;
     objectid := fun k => N.of_nat k;
     store_up := fun _ => true;
     placement := fun _ => 0 |}.

(** The same, with a store that stops answering from its [n]-th call on. *)
Definition failing_from (n : nat) : Env :=
  {| urandom := urandom calm;
     utcnow := utcnow calm;
     objectid := objectid calm;
     store_up := fun k => Nat.ltb k n;
     placement := placement calm |}.

(** The same as [calm], with a clock that reads 123456 microseconds past
    the second. *)
Definition precise : Env :=
  {| urandom := urandom calm;
     utcnow := fun k => (1704067200123456 + Z.of_nat k * 1000000)%Z;
     objectid := objectid calm;
     store_up := store_up calm;
     placement := placement calm |}.

Definition empty_world : World :=
  mkWorld (mkStore [] []) 0 0 0 0 [].

(** The world after [n] requests [POST /api/status] for [name]. *)
Fixpoint after_posts (E : Env) (name : string) (n : nat) (w : World)
    : World :=
  match n with
  | O => w
  | S k =>
      after_posts E name k
        (snd (handle (P := strict) E
                (POST_status (VDoc [("client_name", VStr name)])) w))
  end.

(** A document with seven items, as one would write it by hand. *)
Definition seven_items : TrustMetrics.t :=
  TrustMetrics.mk "11111111-2222-4333-8444-555555555555"
    [MetricItem.mk "rating" "Rating" "4.7/5" (Some "Star");
     MetricItem.mk "shipments" "Shipments" "98K+" (Some "Zap");
     MetricItem.mk "downloads" "Downloads" "70K+" (Some "Download");
     MetricItem.mk "uptime" "Latency" "0.9s" (Some "Gauge");
     MetricItem.mk "countries" "Countries" "42" None;
     MetricItem.mk "partners" "Partners" "310" None;
     MetricItem.mk "support" "Support" "24/7" (Some "Phone")]
    1700000000000000.

(** The empty world after [seven_items] was written to [trust_metrics]. *)
Definition world_with_seven_items : World :=
  snd (insert_one calm trust_metrics (TrustMetrics.dict seven_items)
         empty_world).

(** The world after 1000 requests [POST /status] for ["old"]. *)
Definition world_at_limit : World := after_posts calm "old" 1000 empty_world.

(** The world after 1500 requests [POST /status] for ["acme"]. *)
Definition world_after_1500_posts : World :=
  after_posts calm "acme" 1500 empty_world.

(** A request [POST /status] for ["acme"] at the limit, and the request
    [GET /status] that follows it. *)
Definition post_at_limit : result response * World :=
  handle (P := strict) calm
    (POST_status (VDoc [("client_name", VStr "acme")])) world_at_limit.

Definition list_after_post_at_limit : result response * World :=
  handle (P := strict) calm GET_status (snd post_at_limit).

(** A request [POST /status] for ["acme"] on an empty store, under a clock
    that reads 123456 microseconds past the second, and the request
    [GET /status] that follows it. *)
Definition post_precise : result response * World :=
  handle (P := strict) precise
    (POST_status (VDoc [("client_name", VStr "acme")])) empty_world.

Definition list_after_post_precise : result response * World :=
  handle (P := strict) precise GET_status (snd post_precise).

(** A request body with nothing but the client name, and one in which the
    client also sends an id, a timestamp and a field of its own. *)
Definition plain_body : doc := [("client_name", VStr "acme")].

Definition body_with_extras : doc :=
  [("id", VStr "chosen-by-the-client");
   ("client_name", VStr "acme");
   ("timestamp", VDate 0);
   ("admin", VBool true)].

(** A stored document with fields the model does not have. *)
Definition doc_with_extras : doc :=
  [("_id", VOid 12);
   ("schema", VInt 3);
   ("id", VStr (TrustMetrics.id seven_items));
   ("note", VStr "edited by hand");
   ("items",
    VList (map (fun i => VDoc (MetricItem.dict i))
               (TrustMetrics.items seven_items)));
   ("updated_at", VDate (TrustMetrics.updated_at seven_items));
   ("owner", VDoc [("team", VStr "growth")])].

Definition world_with_extras : World :=
  mkWorld (mkStore [] [doc_with_extras]) 0 0 1 1
    [mkEvent trust_metrics InsertOne true].

(** ** Sequences of requests *)

Section Sequences.
Context {P : Pydantic} (E : Env).

(** [n] requests [GET /api/metrics] in a row, with their outcomes, oldest
    first. *)
Fixpoint get_metrics_times (n : nat) (w : World)
    : list (result TrustMetrics.t) * World :=
  match n with
  | O => ([], w)
  | S k =>
      let (r, w1) := get_metrics E w in
      let (rs, w2) := get_metrics_times k w1 in
      (r :: rs, w2)
  end.

(** One request [POST /api/status] for each of [names], in turn. *)
Fixpoint post_all (names : list string) (w : World) : World :=
  match names with
  | [] => w
  | name :: names' =>
      post_all names'
        (snd (handle E (POST_status (VDoc [("client_name", VStr name)])) w))
  end.

End Sequences.

(** The collection a route works on. *)
Definition route_collection (r : request) : option collection :=
  match r with
  | GET_root => None
  | POST_status _ => Some status_checks
  | GET_status => Some status_checks
  | GET_metrics => Some trust_metrics
  end.

(** A request body from which [StatusCheckCreate] cannot be built for want
    of a [client_name]: a JSON value that is no object, or an object
    without that key. *)
Definition lacks_client_name (body : value) : bool :=
  match body with
  | VDoc d => match get "client_name" d with Some _ => false | None => true end
  | _ => true
  end.

(** ** Start-up: the environment and the CORS origins *)

(** [os.environ], after [load_dotenv]. *)
Definition environ : Type := list (string * string).

(** [os.environ.get(k)] *)
Fixpoint environ_get (k : string) (env : environ) : option string :=
  match env with
  | [] => None
  | (k', v) :: env' => if String.eqb k' k then Some v else environ_get k env'
  end.

(** [s.split(sep)] for a separator of one character: every occurrence
    separates, and empty pieces are kept. *)
Fixpoint split (sep : ascii) (s : string) : list string :=
  match s with
  | "" => [""]
  | String c s' =>
      if Ascii.eqb c sep then "" :: split sep s'
      else match split sep s' with
           | piece :: pieces => String c piece :: pieces
           | [] => [String c ""]
           end
  end.

(** [sep.join(pieces)] *)
Fixpoint join (sep : string) (pieces : list string) : string :=
  match pieces with
  | [] => ""
  | [piece] => piece
  | piece :: pieces' => piece ++ sep ++ join sep pieces'
  end.

(** [c in s] *)
Fixpoint occurs (c : ascii) (s : string) : bool :=
  match s with
  | "" => false
  | String c' s' => Ascii.eqb c' c || occurs c s'
  end.

(** [s.count(c)] *)
Fixpoint count_char (c : ascii) (s : string) : nat :=
  match s with
  | "" => 0
  | String c' s' => (if Ascii.eqb c' c then 1 else 0) + count_char c s'
  end.

(** [os.environ.get('CORS_ORIGINS', '*').split(',')] *)
Definition cors_origins (env : environ) : list string :=
  split ","
    (match environ_get "CORS_ORIGINS" env with
     | Some v => v
     | None => "*"
     end).

(** ** More concrete settings *)

(** A document that holds nothing but the driver's [_id]. *)
Definition bare_doc : doc := [("_id", VOid 3)].

Definition world_with_bare_metrics : World :=
  mkWorld (mkStore [] [bare_doc]) 0 0 1 1
    [mkEvent trust_metrics InsertOne true].

(** A [trust_metrics] document written without an [id]. *)
Definition doc_without_id : doc :=
  [("_id", VOid 5);
   ("items",
    VList (map (fun i => VDoc (MetricItem.dict i))
               (TrustMetrics.items seven_items)));
   ("updated_at", VDate (TrustMetrics.updated_at seven_items))].

Definition world_with_doc_without_id : World :=
  mkWorld (mkStore [] [doc_without_id]) 0 0 1 1
    [mkEvent trust_metrics InsertOne true].

(** A [status_checks] collection whose second document has lost its
    [client_name]. *)
Definition world_with_broken_status : World :=
  mkWorld
    (mkStore
       [("_id", VOid 0)
        :: StatusCheck.dict (StatusCheck.mk "a" "acme" 1704067200000000);
        [("_id", VOid 1); ("id", VStr "b");
         ("timestamp", VDate 1704067201000000)]]
       [])
    0 0 2 2
    [mkEvent status_checks InsertOne true;
     mkEvent status_checks InsertOne true].

(** An environment with two origins, the second after a blank. *)
Definition production_environ : environ :=
  [("MONGO_URL", "mongodb://db:27017");
   ("DB_NAME", "app");
   ("CORS_ORIGINS", "https://a.example, https://b.example")].

Example uuid_of_first_draw :
  fst (new_id calm empty_world)
  = Ok "01234567-89ab-4def-8123-456789abcdef".
Proof. reflexivity. Qed.

Example root_says_hello :
  fst (handle (P := strict) calm GET_root empty_world)
  = Ok (Json [("message", VStr "Hello World")]).
Proof. reflexivity. Qed.

Example first_post :
  handle (P := strict) calm
    (POST_status (VDoc [("client_name", VStr "acme")])) empty_world
  = (Ok (AStatusCheck
           (StatusCheck.mk "01234567-89ab-4def-8123-456789abcdef" "acme"
              1704067200000000)),
     mkWorld
       (mkStore
          [[("_id", VOid 0);
            ("id", VStr "01234567-89ab-4def-8123-456789abcdef");
            ("client_name", VStr "acme");
            ("timestamp", VDate 1704067200000000)]] [])
       1 1 1 1 [mkEvent status_checks InsertOne true]).
Proof. reflexivity. Qed.

(** ** Facts about documents and identifiers *)

Lemma get_pop_other (k k' : string) (d : doc) :
  k <> k' -> get k (pop k' d) = get k d.
Proof.
  intros Hk. induction d as [|[k0 v] d IH]; simpl; [reflexivity|].
  destruct (String.eqb_spec k0 k') as [->|Hk0]; simpl.
  - destruct (String.eqb_spec k' k) as [->|_]; [congruence|exact IH].
  - rewrite IH. reflexivity.
Qed.

Lemma get_pop_same (k : string) (d : doc) : get k (pop k d) = None.
Proof.
  induction d as [|[k0 v] d IH]; simpl; [reflexivity|].
  destruct (String.eqb_spec k0 k) as [->|Hk0]; simpl; [exact IH|].
  destruct (String.eqb_spec k0 k); [contradiction|exact IH].
Qed.

Lemma pop_absent (k : string) (d : doc) : get k d = None -> pop k d = d.
Proof.
  induction d as [|[k0 v] d IH]; simpl; [reflexivity|].
  destruct (String.eqb_spec k0 k) as [->|Hk0]; simpl; [discriminate|].
  intros H. rewrite (IH H). reflexivity.
Qed.

Lemma bson_MetricItem (m : MetricItem.t) :
  bson (VDoc (MetricItem.dict m)) = VDoc (MetricItem.dict m).
Proof. destruct m as [k l v [i|]]; reflexivity. Qed.

(** What the store keeps of a [TrustMetrics] is the dictionary of the
    same value with [updated_at] cut to the millisecond. *)
Lemma bson_TrustMetrics (m : TrustMetrics.t) :
  bson_doc (TrustMetrics.dict m) = TrustMetrics.dict (TrustMetrics_stored m).
Proof.
  destruct m as [i l t]. unfold bson_doc, TrustMetrics.dict. simpl.
  do 4 f_equal. rewrite map_map. apply map_ext. intros m.
  apply bson_MetricItem.
Qed.

Lemma bson_StatusCheck (s : StatusCheck.t) :
  bson_doc (StatusCheck.dict s) = StatusCheck.dict (StatusCheck_stored s).
Proof. destruct s. reflexivity. Qed.

(** Cutting to the millisecond twice is cutting once. *)
Lemma millis_millis (t : Z) : millis (millis t) = millis t.
Proof.
  unfold millis. f_equal. rewrite Z.mul_comm. apply Z.div_mul.
  discriminate.
Qed.

Lemma place_nil (back : nat) (d : doc) : place back d [] = [d].
Proof. reflexivity. Qed.

(** Placing a document keeps the others, in their order. *)
Lemma place_spec (back : nat) (d : doc) (l : list doc) :
  exists l1 l2, l = (l1 ++ l2)%list /\ place back d l = (l1 ++ d :: l2)%list.
Proof.
  exists (firstn (List.length l - back) l), (skipn (List.length l - back) l).
  split; [symmetry; apply firstn_skipn|reflexivity].
Qed.

Lemma place_back_0 (d : doc) (l : list doc) : place 0 d l = (l ++ [d])%list.
Proof.
  unfold place. rewrite Nat.sub_0_r, firstn_all, skipn_all. reflexivity.
Qed.

Lemma length_place (back : nat) (d : doc) (l : list doc) :
  List.length (place back d l) = S (List.length l).
Proof.
  destruct (place_spec back d l) as [l1 [l2 [Hl ->]]].
  rewrite Hl, !length_app. simpl. lia.
Qed.

Lemma In_place (back : nat) (d : doc) (l : list doc) :
  In d (place back d l).
Proof.
  destruct (place_spec back d l) as [l1 [l2 [_ ->]]].
  apply in_or_app. right. left. reflexivity.
Qed.

Lemma forallb_place (f : doc -> bool) (back : nat) (d : doc) (l : list doc) :
  forallb f (place back d l) = (f d && forallb f l)%bool.
Proof.
  destruct (place_spec back d l) as [l1 [l2 [Hl ->]]].
  rewrite Hl, !forallb_app. simpl.
  destruct (forallb f l1), (f d), (forallb f l2); reflexivity.
Qed.

Lemma length_append (s1 s2 : string) :
  String.length (s1 ++ s2) = String.length s1 + String.length s2.
Proof. induction s1 as [|c s1 IH]; simpl; [reflexivity|now rewrite IH]. Qed.

Lemma length_substring (s : string) :
  forall n m, n + m <= String.length s -> String.length (substring n m s) = m.
Proof.
  induction s as [|c s IH]; intros n m H; simpl in H.
  - assert (n = 0) by lia. assert (m = 0) by lia. subst. reflexivity.
  - destruct n as [|n]; simpl.
    + destruct m as [|m]; simpl; [reflexivity|].
      rewrite IH; [reflexivity|lia].
    + apply IH. lia.
Qed.

Lemma length_hex_acc (width : nat) :
  forall n acc,
    String.length (hex_acc width n acc) = width + String.length acc.
Proof.
  induction width as [|k IH]; intros n acc; simpl; [reflexivity|].
  rewrite IH. simpl. lia.
Qed.

Lemma length_hex32 (n : N) : String.length (hex32 n) = 32.
Proof. unfold hex32. rewrite length_hex_acc. reflexivity. Qed.

(** [str(uuid)] always has the 36 characters of the 8-4-4-4-12 layout. *)
Lemma length_uuid_str (i : N) : String.length (uuid_str i) = 36.
Proof.
  unfold uuid_str. cbv zeta.
  pose proof (length_hex32 i) as H.
  repeat rewrite length_append.
  repeat (rewrite length_substring; [|rewrite H; simpl; lia]).
  reflexivity.
Qed.

Lemma uuid_str_nonempty (i : N) : uuid_str i <> "".
Proof.
  intros H. pose proof (length_uuid_str i) as L. rewrite H in L.
  discriminate L.
Qed.

Lemma skipn_length_app {A} (l l' : list A) :
  skipn (List.length l) (l ++ l') = l'.
Proof. induction l as [|a l IH]; simpl; [reflexivity|exact IH]. Qed.

Lemma StatusCheck_of_doc_dict (s : StatusCheck.t) :
  StatusCheck_of_doc (StatusCheck.dict s) = Some s.
Proof. destruct s. reflexivity. Qed.

(** ** Facts about model construction *)

Section ModelFacts.
Context {P : Pydantic} (E : Env).

Lemma MetricItem_init_dict (m : MetricItem.t) :
  MetricItem_init (MetricItem.dict m) = Some m.
Proof.
  destruct m as [k l v [i|]]; unfold MetricItem_init, field_required,
    field_optional_str, optional_str_validator; simpl;
    rewrite !str_validator_str; reflexivity.
Qed.

Lemma items_validator_dict (l : list MetricItem.t) :
  items_validator (VList (map (fun i => VDoc (MetricItem.dict i)) l))
  = Some l.
Proof.
  unfold items_validator. induction l as [|m l IH]; simpl; [reflexivity|].
  rewrite MetricItem_init_dict, IH. reflexivity.
Qed.

(** A dictionary that carries the three fields of a [TrustMetrics] value,
    and whatever else, constructs that value and takes nothing from the
    surroundings. *)
Lemma TrustMetrics_init_fields (d : doc) (tm : TrustMetrics.t) (w : World) :
  get "id" d = Some (VStr (TrustMetrics.id tm)) ->
  get "items" d
  = Some (VList (map (fun i => VDoc (MetricItem.dict i))
                     (TrustMetrics.items tm))) ->
  get "updated_at" d = Some (VDate (TrustMetrics.updated_at tm)) ->
  TrustMetrics_init E d w = (Ok tm, w).
Proof.
  intros Hi Hl Ht.
  unfold TrustMetrics_init, field_default_factory, field_required, bind, ret.
  rewrite Hi, Hl, Ht, str_validator_str, datetime_validator_datetime,
    items_validator_dict.
  destruct tm; reflexivity.
Qed.

Lemma StatusCheck_init_of_doc (d : doc) (s : StatusCheck.t) (w : World) :
  StatusCheck_of_doc d = Some s -> StatusCheck_init E d w = (Ok s, w).
Proof.
  unfold StatusCheck_of_doc, StatusCheck_init, field_default_factory,
    field_required, bind, ret.
  destruct (get "id" d) as [[]|]; try discriminate.
  destruct (get "client_name" d) as [[]|]; try discriminate.
  destruct (get "timestamp" d) as [[]|]; try discriminate.
  intros [= <-].
  rewrite !str_validator_str, datetime_validator_datetime. reflexivity.
Qed.

Lemma mapM_StatusCheck_init (l : list doc) (w : World) :
  forall ss,
    Forall2 (fun d s => StatusCheck_of_doc d = Some s) l ss ->
    mapM (StatusCheck_init E) l w = (Ok ss, w).
Proof.
  induction l as [|d l IH]; intros ss H; inversion H; subst; simpl.
  - reflexivity.
  - unfold bind. rewrite (StatusCheck_init_of_doc _ _ _ H2).
    rewrite (IH _ H4). reflexivity.
Qed.

Lemma StatusCheck_init_store (d : doc) (w : World) :
  same_store_side w (snd (StatusCheck_init E d w)).
Proof.
  unfold StatusCheck_init, field_default_factory, field_required, bind,
    ret, raise, new_id, uuid4, datetime_utcnow, same_store_side.
  destruct (get "id" d); destruct (get "timestamp" d); simpl;
    repeat match goal with
           | |- context [match ?x with _ => _ end] => destruct x; simpl
           end; auto.
Qed.

Lemma mapM_StatusCheck_init_store (l : list doc) :
  forall w, same_store_side w (snd (mapM (StatusCheck_init E) l w)).
Proof.
  induction l as [|d l IH]; intros w; simpl.
  - unfold same_store_side; auto.
  - unfold bind.
    pose proof (StatusCheck_init_store d w) as H0.
    destruct (StatusCheck_init E d w) as [[s|e] w1]; simpl in *.
    + pose proof (IH w1) as H1.
      destruct (mapM (StatusCheck_init E) l w1) as [[ss|e] w2];
        simpl in *; unfold same_store_side in *;
        intuition congruence.
    + exact H0.
Qed.

Lemma TrustMetrics_init_store (d : doc) (w : World) :
  same_store_side w (snd (TrustMetrics_init E d w)).
Proof.
  unfold TrustMetrics_init, field_default_factory, field_required, bind,
    ret, raise, new_id, uuid4, datetime_utcnow, same_store_side.
  destruct (get "id" d); destruct (get "updated_at" d); simpl;
    repeat match goal with
           | |- context [match ?x with _ => _ end] => destruct x; simpl
           end; auto.
Qed.

End ModelFacts.

(** ** Facts about the driver and the handlers *)

Section HandlerFacts.
Context {P : Pydantic} (E : Env).

Lemma store_call_up c k w :
  store_up E (n_store w) = true -> store_call E c k w = (Ok tt, logged E c k w).
Proof. unfold store_call, logged. intros ->. reflexivity. Qed.

Lemma store_call_down c k w :
  store_up E (n_store w) = false ->
  store_call E c k w = (Raise StoreUnavailable, logged E c k w).
Proof. unfold store_call, logged. intros ->. reflexivity. Qed.

Lemma find_one_up c w :
  store_up E (n_store w) = true ->
  find_one E c w = (Ok (hd_error (coll c (db w))), logged E c FindOne w).
Proof.
  intros H. unfold find_one, bind. rewrite (store_call_up _ _ _ H).
  reflexivity.
Qed.

Lemma find_one_down c w :
  store_up E (n_store w) = false ->
  find_one E c w = (Raise StoreUnavailable, logged E c FindOne w).
Proof.
  intros H. unfold find_one, bind. rewrite (store_call_down _ _ _ H).
  reflexivity.
Qed.

Lemma find_to_list_up c n w :
  store_up E (n_store w) = true ->
  find_to_list E c n w
  = (Ok (firstn n (coll c (db w))), logged E c (FindToList n) w).
Proof.
  intros H. unfold find_to_list, bind. rewrite (store_call_up _ _ _ H).
  reflexivity.
Qed.

Lemma find_to_list_down c n w :
  store_up E (n_store w) = false ->
  find_to_list E c n w
  = (Raise StoreUnavailable, logged E c (FindToList n) w).
Proof.
  intros H. unfold find_to_list, bind. rewrite (store_call_down _ _ _ H).
  reflexivity.
Qed.

(** Inserting a document that has no [_id] yet. *)
Lemma insert_one_up c d w :
  get "_id" d = None ->
  store_up E (n_store w) = true ->
  insert_one E c d w
  = (Ok tt,
     mkWorld
       (set_coll c
          (place (placement E (n_store w))
             (("_id", VOid (objectid E (n_objectid w))) :: bson_doc d)
             (coll c (db w)))
          (db w))
       (n_urandom w) (n_utcnow w) (S (n_objectid w)) (S (n_store w))
       (trace w ++ [mkEvent c InsertOne true])).
Proof.
  intros Hd H. unfold insert_one, bind at 1. rewrite Hd.
  unfold bind, ObjectId, ret, calls_so_far, store_call, read, write. simpl.
  rewrite H, (pop_absent _ _ Hd). reflexivity.
Qed.

Lemma insert_one_down c d w :
  get "_id" d = None ->
  store_up E (n_store w) = false ->
  insert_one E c d w
  = (Raise StoreUnavailable,
     mkWorld (db w) (n_urandom w) (n_utcnow w) (S (n_objectid w))
       (S (n_store w)) (trace w ++ [mkEvent c InsertOne false])).
Proof.
  intros Hd H. unfold insert_one, bind at 1. rewrite Hd.
  unfold bind, ObjectId, ret, calls_so_far, store_call, read, write. simpl.
  rewrite H. reflexivity.
Qed.

(** The construction of the default document in [get_metrics]. *)
Lemma TrustMetrics_init_default (l : list MetricItem.t) (w : World) :
  TrustMetrics_init E
    [("items", VList (map (fun i => VDoc (MetricItem.dict i)) l))] w
  = (Ok (TrustMetrics.mk (uuid_str (uuid4_int (urandom E (n_urandom w)))) l
           (utcnow E (n_utcnow w))),
     mkWorld (db w) (S (n_urandom w)) (S (n_utcnow w)) (n_objectid w)
       (n_store w) (trace w)).
Proof.
  pose proof (items_validator_dict l) as H.
  remember (VList (map (fun i => VDoc (MetricItem.dict i)) l)) as v.
  unfold TrustMetrics_init, field_default_factory, field_required, bind,
    new_id, uuid4, datetime_utcnow, ret. simpl.
  rewrite H. reflexivity.
Qed.

(** The construction of the record in [create_status_check]. *)
Lemma StatusCheck_init_create (name : string) (w : World) :
  StatusCheck_init E (StatusCheckCreate.dict (StatusCheckCreate.mk name)) w
  = (Ok (new_status_check E name w),
     mkWorld (db w) (S (n_urandom w)) (S (n_utcnow w)) (n_objectid w)
       (n_store w) (trace w)).
Proof.
  unfold StatusCheck_init, field_default_factory, field_required, bind,
    new_id, uuid4, datetime_utcnow, ret. simpl.
  rewrite str_validator_str. reflexivity.
Qed.

(** [get_metrics] when [find_one] finds nothing and the store answers
    both calls. *)
Lemma get_metrics_absent (w : World) :
  not_doc (hd_error (db_trust_metrics (db w))) = true ->
  store_up E (n_store w) = true ->
  store_up E (S (n_store w)) = true ->
  get_metrics E w
  = (Ok (default_metrics E w),
     mkWorld
       (mkStore (db_status_checks (db w))
          (place (placement E (S (n_store w)))
             (("_id", VOid (objectid E (n_objectid w)))
              :: TrustMetrics.dict (TrustMetrics_stored (default_metrics E w)))
             (db_trust_metrics (db w))))
       (S (n_urandom w)) (S (n_utcnow w)) (S (n_objectid w))
       (S (S (n_store w)))
       (trace w ++ [mkEvent trust_metrics FindOne true;
                    mkEvent trust_metrics InsertOne true])).
Proof.
  intros Hnot H0 H1. unfold get_metrics, bind at 1.
  rewrite (find_one_up _ _ H0). cbv beta iota.
  change (coll trust_metrics (db w)) with (db_trust_metrics (db w)).
  rewrite Hnot.
  unfold bind at 1. rewrite TrustMetrics_init_default.
  unfold bind. rewrite insert_one_up; [|reflexivity|exact H1].
  fold (default_metrics E w). rewrite bson_TrustMetrics.
  unfold ret, logged.
  cbn [db n_urandom n_utcnow n_objectid n_store trace set_coll coll
       db_status_checks db_trust_metrics].
  rewrite H0, <- app_assoc. reflexivity.
Qed.

(** [get_metrics] when [find_one] finds a document that carries the three
    fields of [tm]. *)
Lemma get_metrics_present (w : World) (d : doc) (tm : TrustMetrics.t) :
  hd_error (db_trust_metrics (db w)) = Some d ->
  get "id" d = Some (VStr (TrustMetrics.id tm)) ->
  get "items" d
  = Some (VList (map (fun i => VDoc (MetricItem.dict i))
                     (TrustMetrics.items tm))) ->
  get "updated_at" d = Some (VDate (TrustMetrics.updated_at tm)) ->
  store_up E (n_store w) = true ->
  get_metrics E w = (Ok tm, logged E trust_metrics FindOne w).
Proof.
  intros Hd Hi Hl Ht H0. unfold get_metrics, bind.
  rewrite (find_one_up _ _ H0). cbv beta iota.
  change (coll trust_metrics (db w)) with (db_trust_metrics (db w)).
  rewrite Hd.
  destruct d as [|kv d']; [discriminate Hi|]. cbv beta iota delta [not_doc].
  apply TrustMetrics_init_fields; rewrite get_pop_other; assumption || discriminate.
Qed.

End HandlerFacts.

(** ** Availability of the store *)

Lemma store_answers_first E w n :
  store_answers E w (S n) -> store_up E (n_store w) = true.
Proof. intros H. rewrite <- (Nat.add_0_r (n_store w)). apply H. lia. Qed.

Lemma store_answers_second E w n :
  store_answers E w (S (S n)) -> store_up E (S (n_store w)) = true.
Proof.
  intros H. replace (S (n_store w)) with (n_store w + 1) by lia.
  apply H. lia.
Qed.

Lemma store_answers_third E w n :
  store_answers E w (S (S (S n))) -> store_up E (S (S (n_store w))) = true.
Proof.
  intros H. replace (S (S (n_store w))) with (n_store w + 2) by lia.
  apply H. lia.
Qed.

(** ** The metrics accessor *)

(** C1. When the [trust_metrics] collection is empty (and the store answers),
    [GET /metrics] builds a [TrustMetrics] value whose items are the four
    entries rating = 4.9/5, shipments = 120K+, downloads = 85K+ and
    uptime = 1.2s, in that order, with an id drawn from fresh entropy and
    the current reading of the clock, inserts that value into
    [trust_metrics] (where it is the one document, held as BSON under the
    driver's [_id]), and returns it. *)
Theorem get_metrics_seeds_default {P : Pydantic} (E : Env) (w : World) :
  db_trust_metrics (db w) = [] ->
  store_answers E w 2 ->
  exists tm w',
    get_metrics E w = (Ok tm, w') /\
    map (fun i => (MetricItem.key i, MetricItem.value i))
        (TrustMetrics.items tm)
    = [("rating", "4.9/5"); ("shipments", "120K+"); ("downloads", "85K+");
       ("uptime", "1.2s")] /\
    TrustMetrics.id tm = uuid_str (uuid4_int (urandom E (n_urandom w))) /\
    n_urandom w' = S (n_urandom w) /\
    TrustMetrics.updated_at tm = utcnow E (n_utcnow w) /\
    n_utcnow w' = S (n_utcnow w) /\
    db_trust_metrics (db w')
    = [("_id", VOid (objectid E (n_objectid w)))
       :: bson_doc (TrustMetrics.dict tm)] /\
    db_status_checks (db w') = db_status_checks (db w).
Proof.
  intros Hempty Hup.
  pose proof (store_answers_first _ _ _ Hup) as H0.
  pose proof (store_answers_second _ _ _ Hup) as H1.
  eexists _, _. split.
  - apply get_metrics_absent; [rewrite Hempty; reflexivity|assumption..].
  - cbn [db n_urandom n_utcnow db_trust_metrics db_status_checks].
    rewrite Hempty, place_nil, bson_TrustMetrics.
    repeat split; reflexivity.
Qed.

Lemma get_metrics_seeds_default_witness :
  db_trust_metrics (db empty_world) = [] /\
  store_answers calm empty_world 2 /\
  exists tm w',
    get_metrics (P := strict) calm empty_world = (Ok tm, w') /\
    map (fun i => (MetricItem.key i, MetricItem.value i))
        (TrustMetrics.items tm)
    = [("rating", "4.9/5"); ("shipments", "120K+"); ("downloads", "85K+");
       ("uptime", "1.2s")] /\
    TrustMetrics.id tm
    = uuid_str (uuid4_int (urandom calm (n_urandom empty_world))) /\
    n_urandom w' = S (n_urandom empty_world) /\
    TrustMetrics.updated_at tm = utcnow calm (n_utcnow empty_world) /\
    n_utcnow w' = S (n_utcnow empty_world) /\
    db_trust_metrics (db w')
    = [("_id", VOid (objectid calm (n_objectid empty_world)))
       :: bson_doc (TrustMetrics.dict tm)] /\
    db_status_checks (db w') = db_status_checks (db empty_world).
Proof.
  split; [reflexivity|]. split; [intros k _; reflexivity|].
  apply (get_metrics_seeds_default (P := strict) calm empty_world);
    [reflexivity|intros k _; reflexivity].
Defined.

(** C2. When the document that [find_one] finds in [trust_metrics] is a
    [TrustMetrics] document up to the store's own [_id] field, [GET /metrics]
    returns that [TrustMetrics] value as it is, without [_id]; it issues the
    one read and leaves both collections as they were, so no default
    document is inserted. *)
Theorem get_metrics_round_trip {P : Pydantic} (E : Env) (w : World)
    (d : doc) (tm : TrustMetrics.t) :
  hd_error (db_trust_metrics (db w)) = Some d ->
  pop "_id" d = TrustMetrics.dict tm ->
  store_answers E w 1 ->
  fst (get_metrics E w) = Ok tm /\
  get "_id" (TrustMetrics.dict tm) = None /\
  db (snd (get_metrics E w)) = db w /\
  calls (get_metrics E) w = [mkEvent trust_metrics FindOne true].
Proof.
  intros Hd Hpop Hup.
  pose proof (store_answers_first _ _ _ Hup) as H0.
  assert (Hget : forall k, k <> "_id" ->
                   get k d = get k (TrustMetrics.dict tm)).
  { intros k Hk. rewrite <- Hpop. symmetry. apply get_pop_other. exact Hk. }
  unfold calls.
  rewrite (get_metrics_present E w d tm Hd); try assumption;
    try (rewrite Hget; [reflexivity|discriminate]).
  unfold logged. simpl. rewrite H0, skipn_length_app.
  repeat split; reflexivity.
Qed.

Lemma get_metrics_round_trip_witness :
  hd_error (db_trust_metrics (db world_with_seven_items))
  = Some (("_id", VOid 0) :: TrustMetrics.dict seven_items) /\
  pop "_id" (("_id", VOid 0) :: TrustMetrics.dict seven_items)
  = TrustMetrics.dict seven_items /\
  store_answers calm world_with_seven_items 1 /\
  List.length (TrustMetrics.items seven_items) = 7 /\
  fst (get_metrics (P := strict) calm world_with_seven_items)
  = Ok seven_items /\
  get "_id" (TrustMetrics.dict seven_items) = None /\
  db (snd (get_metrics (P := strict) calm world_with_seven_items))
  = db world_with_seven_items /\
  calls (get_metrics (P := strict) calm) world_with_seven_items
  = [mkEvent trust_metrics FindOne true].
Proof.
  split; [reflexivity|]. split; [reflexivity|].
  split; [intros k _; reflexivity|]. split; [reflexivity|].
  apply (get_metrics_round_trip (P := strict) calm world_with_seven_items
           (("_id", VOid 0) :: TrustMetrics.dict seven_items) seven_items);
    [reflexivity|reflexivity|intros k _; reflexivity].
Defined.

(** C3, as stated, fails on [updated_at]: with a clock that reads 123456
    microseconds past the second, the first [GET /metrics] on an empty
    store returns that reading, and the second, which reads the stored
    document back, returns it cut to 123 milliseconds. *)
Lemma get_metrics_twice_updated_at_differs :
  fst (get_metrics (P := strict) precise empty_world)
  = Ok (TrustMetrics.mk "01234567-89ab-4def-8123-456789abcdef"
          default_items 1704067200123456) /\
  fst (get_metrics (P := strict) precise
         (snd (get_metrics (P := strict) precise empty_world)))
  = Ok (TrustMetrics.mk "01234567-89ab-4def-8123-456789abcdef"
          default_items 1704067200123000) /\
  fst (get_metrics (P := strict) precise empty_world)
  <> fst (get_metrics (P := strict) precise
            (snd (get_metrics (P := strict) precise empty_world))).
Proof.
  assert (H1 : fst (get_metrics (P := strict) precise empty_world)
               = Ok (TrustMetrics.mk "01234567-89ab-4def-8123-456789abcdef"
                       default_items 1704067200123456))
    by (vm_compute; reflexivity).
  assert (H2 : fst (get_metrics (P := strict) precise
                      (snd (get_metrics (P := strict) precise empty_world)))
               = Ok (TrustMetrics.mk "01234567-89ab-4def-8123-456789abcdef"
                       default_items 1704067200123000))
    by (vm_compute; reflexivity).
  split; [exact H1|]. split; [exact H2|].
  rewrite H1, H2. intros H. discriminate H.
Qed.

(** C3, amended.  Starting from an empty [trust_metrics] collection, two
    calls of [GET /metrics] in a row return the same id and the same four
    default items; the second call reads back the document the first one
    inserted, so its updated_at is that of the first result cut to the
    millisecond, which is how the store keeps it; the second call only
    reads, and the collection holds one document afterwards. *)
Theorem get_metrics_twice {P : Pydantic} (E : Env) (w : World) :
  db_trust_metrics (db w) = [] ->
  store_answers E w 3 ->
  exists tm w1 w2,
    get_metrics E w = (Ok tm, w1) /\
    get_metrics E w1
    = (Ok (TrustMetrics.mk (TrustMetrics.id tm) (TrustMetrics.items tm)
             (millis (TrustMetrics.updated_at tm))), w2) /\
    TrustMetrics.items tm = default_items /\
    List.length (TrustMetrics.items tm) = 4 /\
    hd_error (db_trust_metrics (db w1))
    = Some (("_id", VOid (objectid E (n_objectid w)))
            :: bson_doc (TrustMetrics.dict tm)) /\
    calls (get_metrics E) w1 = [mkEvent trust_metrics FindOne true] /\
    db w2 = db w1 /\
    List.length (db_trust_metrics (db w2)) = 1.
Proof.
  intros Hempty Hup.
  pose proof (store_answers_first _ _ _ Hup) as H0.
  pose proof (store_answers_second _ _ _ Hup) as H1.
  pose proof (store_answers_third _ _ _ Hup) as H2.
  pose proof (get_metrics_absent E w) as Hfirst.
  rewrite Hempty in Hfirst. specialize (Hfirst eq_refl H0 H1).
  rewrite place_nil in Hfirst.
  match type of Hfirst with _ = (_, ?x) => set (w1 := x) in * end.
  assert (Hsecond : get_metrics E w1
                    = (Ok (TrustMetrics_stored (default_metrics E w)),
                       logged E trust_metrics FindOne w1)).
  { apply get_metrics_present
      with (d := ("_id", VOid (objectid E (n_objectid w)))
                 :: TrustMetrics.dict
                      (TrustMetrics_stored (default_metrics E w)));
      try reflexivity. exact H2. }
  exists (default_metrics E w), w1, (logged E trust_metrics FindOne w1).
  split; [exact Hfirst|]. split; [exact Hsecond|].
  split; [reflexivity|]. split; [reflexivity|].
  split; [rewrite bson_TrustMetrics; reflexivity|].
  split; [|split; reflexivity].
  unfold calls. rewrite Hsecond. unfold logged. simpl snd. simpl trace at 2.
  rewrite skipn_length_app. simpl. rewrite H2. reflexivity.
Qed.

Lemma get_metrics_twice_witness :
  db_trust_metrics (db empty_world) = [] /\
  store_answers precise empty_world 3 /\
  exists tm w1 w2,
    get_metrics (P := strict) precise empty_world = (Ok tm, w1) /\
    get_metrics (P := strict) precise w1
    = (Ok (TrustMetrics.mk (TrustMetrics.id tm) (TrustMetrics.items tm)
             (millis (TrustMetrics.updated_at tm))), w2) /\
    TrustMetrics.items tm = default_items /\
    List.length (TrustMetrics.items tm) = 4 /\
    hd_error (db_trust_metrics (db w1))
    = Some (("_id", VOid (objectid precise (n_objectid empty_world)))
            :: bson_doc (TrustMetrics.dict tm)) /\
    calls (get_metrics (P := strict) precise) w1
    = [mkEvent trust_metrics FindOne true] /\
    db w2 = db w1 /\
    List.length (db_trust_metrics (db w2)) = 1.
Proof.
  split; [reflexivity|]. split; [intros k _; reflexivity|].
  apply (get_metrics_twice (P := strict) precise empty_world);
    [reflexivity|intros k _; reflexivity].
Defined.

(** C8, as stated, fails on [updated_at]: with a clock that reads 123456
    microseconds past the second, the response of the creation path
    carries that reading, and the document the collection then holds
    carries it cut to 123 milliseconds. *)
Lemma get_metrics_stores_milliseconds :
  fst (get_metrics (P := strict) precise empty_world)
  = Ok (TrustMetrics.mk "01234567-89ab-4def-8123-456789abcdef"
          default_items 1704067200123456) /\
  db_trust_metrics (db (snd (get_metrics (P := strict) precise empty_world)))
  = [("_id", VOid 0)
     :: TrustMetrics.dict
          (TrustMetrics.mk "01234567-89ab-4def-8123-456789abcdef"
             default_items 1704067200123000)] /\
  VDate 1704067200123000 <> VDate 1704067200123456.
Proof.
  split; [vm_compute; reflexivity|]. split; [vm_compute; reflexivity|].
  discriminate.
Qed.

(** C8, amended.  On the creation path of [GET /metrics] ([trust_metrics]
    empty) the document stored is the dictionary of the response as the
    store keeps it, under the driver's [_id]: it agrees with the response
    on id and items (keys, labels, values and icons), and its updated_at
    is that of the response cut to the millisecond; constructing a
    [TrustMetrics] from it gives the response with that updated_at. *)
Theorem get_metrics_returns_what_it_stores {P : Pydantic} (E : Env)
    (w : World) :
  db_trust_metrics (db w) = [] ->
  store_answers E w 2 ->
  exists tm stored w',
    get_metrics E w = (Ok tm, w') /\
    db_trust_metrics (db w') = [stored] /\
    pop "_id" stored = bson_doc (TrustMetrics.dict tm) /\
    get "id" stored = Some (VStr (TrustMetrics.id tm)) /\
    get "items" stored
    = Some (VList (map (fun i => VDoc (MetricItem.dict i))
                       (TrustMetrics.items tm))) /\
    get "updated_at" stored
    = Some (VDate (millis (TrustMetrics.updated_at tm))) /\
    TrustMetrics_init E (pop "_id" stored) w'
    = (Ok (TrustMetrics.mk (TrustMetrics.id tm) (TrustMetrics.items tm)
             (millis (TrustMetrics.updated_at tm))), w').
Proof.
  intros Hempty Hup.
  pose proof (store_answers_first _ _ _ Hup) as H0.
  pose proof (store_answers_second _ _ _ Hup) as H1.
  eexists _, _, _. split.
  - apply get_metrics_absent; [rewrite Hempty; reflexivity|assumption..].
  - cbn [db db_trust_metrics]. rewrite Hempty, place_nil.
    split; [reflexivity|].
    split; [rewrite bson_TrustMetrics; reflexivity|].
    split; [reflexivity|]. split; [reflexivity|]. split; [reflexivity|].
    apply (TrustMetrics_init_fields E _
             (TrustMetrics_stored (default_metrics E w))); reflexivity.
Qed.

Lemma get_metrics_returns_what_it_stores_witness :
  db_trust_metrics (db empty_world) = [] /\
  store_answers precise empty_world 2 /\
  exists tm stored w',
    get_metrics (P := strict) precise empty_world = (Ok tm, w') /\
    db_trust_metrics (db w') = [stored] /\
    pop "_id" stored = bson_doc (TrustMetrics.dict tm) /\
    get "id" stored = Some (VStr (TrustMetrics.id tm)) /\
    get "items" stored
    = Some (VList (map (fun i => VDoc (MetricItem.dict i))
                       (TrustMetrics.items tm))) /\
    get "updated_at" stored
    = Some (VDate (millis (TrustMetrics.updated_at tm))) /\
    TrustMetrics_init (P := strict) precise (pop "_id" stored) w'
    = (Ok (TrustMetrics.mk (TrustMetrics.id tm) (TrustMetrics.items tm)
             (millis (TrustMetrics.updated_at tm))), w').
Proof.
  split; [reflexivity|]. split; [intros k _; reflexivity|].
  apply (get_metrics_returns_what_it_stores (P := strict) precise
           empty_world);
    [reflexivity|intros k _; reflexivity].
Defined.

(** ** Status checks *)

Lemma forallb_firstn {A} (f : A -> bool) (n : nat) :
  forall l, forallb f l = true -> forallb f (firstn n l) = true.
Proof.
  induction n as [|n IH]; intros [|a l]; simpl; try reflexivity.
  intros H. apply andb_true_iff in H as [Ha Hl].
  rewrite Ha, (IH _ Hl). reflexivity.
Qed.

Lemma StatusCheck_docs_read (l : list doc) :
  forallb is_StatusCheck_doc l = true ->
  exists ss, Forall2 (fun d s => StatusCheck_of_doc d = Some s) l ss.
Proof.
  induction l as [|d l IH]; simpl; intros H.
  - exists []. constructor.
  - apply andb_true_iff in H as [Hd Hl]. destruct (IH Hl) as [ss Hss].
    unfold is_StatusCheck_doc in Hd.
    destruct (StatusCheck_of_doc d) as [s|] eqn:Hs; [|discriminate].
    exists (s :: ss). constructor; assumption.
Qed.

Lemma Forall2_read_map (l : list doc) (ss : list StatusCheck.t) :
  Forall2 (fun d s => StatusCheck_of_doc d = Some s) l ss ->
  map Some ss = map StatusCheck_of_doc l.
Proof. induction 1; simpl; congruence. Qed.

Lemma Forall2_read_In (l : list doc) (ss : list StatusCheck.t) (d : doc) :
  Forall2 (fun d s => StatusCheck_of_doc d = Some s) l ss ->
  In d l -> exists s, In s ss /\ StatusCheck_of_doc d = Some s.
Proof.
  induction 1 as [|d0 s0 l ss H0 H IH]; simpl; intros Hin; [contradiction|].
  destruct Hin as [->|Hin].
  - exists s0. auto.
  - destruct (IH Hin) as [s [Hs Hd]]. exists s. auto.
Qed.

Lemma StatusCheck_of_stored (i : value) (s : StatusCheck.t) :
  StatusCheck_of_doc (("_id", i) :: StatusCheck.dict s) = Some s.
Proof. destruct s. reflexivity. Qed.

Section StatusFacts.
Context {P : Pydantic} (E : Env).

Lemma create_status_check_run (input : StatusCheckCreate.t) (w : World) :
  create_status_check E input w
  = let s := new_status_check E (StatusCheckCreate.client_name input) w in
    if store_up E (n_store w) then
      (Ok s,
       mkWorld
         (mkStore
            (place (placement E (n_store w))
               (("_id", VOid (objectid E (n_objectid w)))
                :: StatusCheck.dict (StatusCheck_stored s))
               (db_status_checks (db w)))
            (db_trust_metrics (db w)))
         (S (n_urandom w)) (S (n_utcnow w)) (S (n_objectid w))
         (S (n_store w)) (trace w ++ [mkEvent status_checks InsertOne true]))
    else
      (Raise StoreUnavailable,
       mkWorld (db w) (S (n_urandom w)) (S (n_utcnow w)) (S (n_objectid w))
         (S (n_store w))
         (trace w ++ [mkEvent status_checks InsertOne false])).
Proof.
  destruct input as [name]. unfold create_status_check, bind at 1.
  rewrite StatusCheck_init_create. cbv zeta. unfold bind.
  destruct (store_up E (n_store w)) eqn:H.
  - rewrite insert_one_up; [reflexivity|reflexivity|exact H].
  - rewrite insert_one_down; [reflexivity|reflexivity|exact H].
Qed.

Lemma parse_body_client_name (name : string) (w : World) :
  parse_body (VDoc [("client_name", VStr name)]) w
  = (Ok (StatusCheckCreate.mk name), w).
Proof.
  unfold parse_body, StatusCheckCreate_init, field_required. simpl.
  rewrite str_validator_str. reflexivity.
Qed.

(** Parsing a request body leaves the world alone. *)
Lemma parse_body_world (body : value) (w : World) :
  snd (parse_body body w) = w.
Proof.
  unfold parse_body, StatusCheckCreate_init, raise, ret.
  destruct body; try reflexivity.
  destruct (field_required "client_name" str_validator d); reflexivity.
Qed.

Lemma get_status_checks_run (w : World) (ss : list StatusCheck.t) :
  store_up E (n_store w) = true ->
  Forall2 (fun d s => StatusCheck_of_doc d = Some s)
          (firstn 1000 (db_status_checks (db w))) ss ->
  get_status_checks E w
  = (Ok ss, logged E status_checks (FindToList 1000) w).
Proof.
  intros H0 Hss. unfold get_status_checks, bind.
  rewrite (find_to_list_up _ _ _ _ H0).
  apply mapM_StatusCheck_init. exact Hss.
Qed.

End StatusFacts.

(** C5. When [status_checks] holds N status-check documents (and the store
    answers), [GET /status] returns min(N, 1000) records: the first
    min(N, 1000) documents of the collection, in the store's order, read as
    [StatusCheck] records.  The collection is left as it was. *)
Theorem get_status_checks_limit {P : Pydantic} (E : Env) (w : World) :
  forallb is_StatusCheck_doc (db_status_checks (db w)) = true ->
  store_answers E w 1 ->
  exists l w',
    get_status_checks E w = (Ok l, w') /\
    List.length l = Nat.min (List.length (db_status_checks (db w))) 1000 /\
    map Some l
    = map StatusCheck_of_doc (firstn 1000 (db_status_checks (db w))) /\
    db w' = db w.
Proof.
  intros Hdocs Hup.
  pose proof (store_answers_first _ _ _ Hup) as H0.
  destruct (StatusCheck_docs_read _ (forallb_firstn _ 1000 _ Hdocs))
    as [ss Hss].
  exists ss, (logged E status_checks (FindToList 1000) w).
  split; [apply get_status_checks_run; assumption|].
  split; [|split; [apply Forall2_read_map; exact Hss|reflexivity]].
  rewrite <- (Forall2_length Hss), length_firstn. apply Nat.min_comm.
Qed.

(** After 1500 requests [POST /status] the list has exactly 1000 records. *)
Lemma get_status_checks_limit_witness :
  forallb is_StatusCheck_doc
    (db_status_checks (db world_after_1500_posts)) = true /\
  store_answers calm world_after_1500_posts 1 /\
  List.length (db_status_checks (db world_after_1500_posts)) = 1500 /\
  Nat.min 1500 1000 = 1000 /\
  exists l w',
    get_status_checks (P := strict) calm world_after_1500_posts
    = (Ok l, w') /\
    List.length l
    = Nat.min (List.length (db_status_checks (db world_after_1500_posts)))
              1000 /\
    map Some l
    = map StatusCheck_of_doc
          (firstn 1000 (db_status_checks (db world_after_1500_posts))) /\
    db w' = db world_after_1500_posts.
Proof.
  split; [vm_compute; reflexivity|]. split; [intros k _; reflexivity|].
  split; [vm_compute; reflexivity|]. split; [reflexivity|].
  apply (get_status_checks_limit (P := strict) calm world_after_1500_posts);
    [vm_compute; reflexivity|intros k _; reflexivity].
Defined.


Lemma not_In_by_client_name (s : StatusCheck.t) (l : list StatusCheck.t) :
  existsb (fun x => String.eqb (StatusCheck.client_name x)
                      (StatusCheck.client_name s)) l = false ->
  ~ In s l.
Proof.
  intros H Hin.
  assert (Hex : existsb (fun x => String.eqb (StatusCheck.client_name x)
                                    (StatusCheck.client_name s)) l = true).
  { apply existsb_exists. exists s. split; [exact Hin|apply String.eqb_refl]. }
  congruence.
Qed.

(** C6, as stated, fails in two ways.  Once the collection has reached the
    limit of the list, in a store that keeps its documents in the order it
    received them: after 1000 earlier records, [POST /status] for ["acme"]
    returns its record and stores it as the 1001st document, and the
    [GET /status] that follows returns 1000 records, none of which is that
    record.  And on an empty store, under a clock that reads 123456
    microseconds past the second: the record [POST /status] returns carries
    that reading, the one record [GET /status] then lists carries it cut to
    123 milliseconds, so the record returned is not among those listed. *)
Lemma post_not_always_listed :
  (List.length (db_status_checks (db world_at_limit)) = 1000 /\
   fst post_at_limit
   = Ok (AStatusCheck (new_status_check calm "acme" world_at_limit)) /\
   nth_error (db_status_checks (db (snd post_at_limit))) 1000
   = Some (("_id", VOid 1000)
           :: StatusCheck.dict
                (new_status_check calm "acme" world_at_limit)) /\
   fst list_after_post_at_limit
   = Ok (StatusChecks (listed list_after_post_at_limit)) /\
   List.length (listed list_after_post_at_limit) = 1000 /\
   ~ In (new_status_check calm "acme" world_at_limit)
        (listed list_after_post_at_limit)) /\
  (fst post_precise
   = Ok (AStatusCheck
           (StatusCheck.mk "01234567-89ab-4def-8123-456789abcdef" "acme"
              1704067200123456)) /\
   fst list_after_post_precise
   = Ok (StatusChecks
           [StatusCheck.mk "01234567-89ab-4def-8123-456789abcdef" "acme"
              1704067200123000]) /\
   ~ In (StatusCheck.mk "01234567-89ab-4def-8123-456789abcdef" "acme"
           1704067200123456)
        (listed list_after_post_precise)).
Proof.
  split.
  - split; [vm_compute; reflexivity|]. split; [vm_compute; reflexivity|].
    split; [vm_compute; reflexivity|]. split; [vm_compute; reflexivity|].
    split; [vm_compute; reflexivity|].
    apply not_In_by_client_name. vm_compute. reflexivity.
  - assert (Hl : fst list_after_post_precise
                 = Ok (StatusChecks
                         [StatusCheck.mk
                            "01234567-89ab-4def-8123-456789abcdef" "acme"
                            1704067200123000]))
      by (vm_compute; reflexivity).
    split; [vm_compute; reflexivity|]. split; [exact Hl|].
    unfold listed. rewrite Hl. intros [H|[]]. discriminate H.
Qed.

(** C6, amended.  For every client name, [POST /status] (the store
    answering) returns a [StatusCheck] with that client name and a freshly
    generated id of 36 characters, and adds that record to
    [status_checks], where its timestamp is kept to the millisecond; when
    the collection held fewer than 1000 status-check documents before the
    request, the [GET /status] that follows includes the record, with the
    timestamp as the store keeps it. *)
Theorem post_then_list {P : Pydantic} (E : Env) (w : World)
    (name : string) :
  store_up E (n_store w) = true ->
  exists s w1,
    handle E (POST_status (VDoc [("client_name", VStr name)])) w
    = (Ok (AStatusCheck s), w1) /\
    StatusCheck.client_name s = name /\
    StatusCheck.id s = uuid_str (uuid4_int (urandom E (n_urandom w))) /\
    String.length (StatusCheck.id s) = 36 /\
    StatusCheck.id s <> "" /\
    In (("_id", VOid (objectid E (n_objectid w)))
        :: bson_doc (StatusCheck.dict s))
       (db_status_checks (db w1)) /\
    List.length (db_status_checks (db w1))
    = S (List.length (db_status_checks (db w))) /\
    (forallb is_StatusCheck_doc (db_status_checks (db w)) = true ->
     List.length (db_status_checks (db w)) < 1000 ->
     store_up E (S (n_store w)) = true ->
     exists l w2,
       handle E GET_status w1 = (Ok (StatusChecks l), w2) /\
       In (StatusCheck.mk (StatusCheck.id s) (StatusCheck.client_name s)
             (millis (StatusCheck.timestamp s))) l).
Proof.
  intros H0.
  set (s := new_status_check E name w).
  set (stored := ("_id", VOid (objectid E (n_objectid w)))
                 :: StatusCheck.dict (StatusCheck_stored s)).
  assert (Hpost : exists w1,
             handle E (POST_status (VDoc [("client_name", VStr name)])) w
             = (Ok (AStatusCheck s), w1) /\
             db_status_checks (db w1)
             = place (placement E (n_store w)) stored
                 (db_status_checks (db w)) /\
             n_store w1 = S (n_store w)).
  { eexists. unfold handle, bind at 1. rewrite parse_body_client_name.
    unfold bind. rewrite create_status_check_run. cbv zeta. rewrite H0.
    unfold ret. repeat split; reflexivity. }
  destruct Hpost as [w1 [Hpost [Hdb Hn]]].
  exists s, w1.
  split; [exact Hpost|]. split; [reflexivity|]. split; [reflexivity|].
  split; [apply length_uuid_str|]. split; [apply uuid_str_nonempty|].
  split; [rewrite Hdb, bson_StatusCheck; apply In_place|].
  split; [rewrite Hdb; apply length_place|].
  intros Hdocs Hlen H1.
  assert (Hdocs1 : forallb is_StatusCheck_doc (db_status_checks (db w1))
                   = true).
  { rewrite Hdb, forallb_place, Hdocs.
    unfold is_StatusCheck_doc, stored. rewrite StatusCheck_of_stored.
    reflexivity. }
  assert (Hall : firstn 1000 (db_status_checks (db w1))
                 = db_status_checks (db w1)).
  { apply firstn_all2. rewrite Hdb, length_place. lia. }
  destruct (StatusCheck_docs_read _ Hdocs1) as [l Hl].
  exists l, (logged E status_checks (FindToList 1000) w1). split.
  - unfold handle, bind.
    rewrite (get_status_checks_run E w1 l); [reflexivity| |].
    + rewrite Hn. exact H1.
    + rewrite Hall. exact Hl.
  - destruct (Forall2_read_In _ _ stored Hl) as [s' [Hin Hs']].
    + rewrite Hdb. apply In_place.
    + unfold stored in Hs'. rewrite StatusCheck_of_stored in Hs'.
      injection Hs' as <-. exact Hin.
Qed.

Lemma post_then_list_witness :
  store_up precise (n_store empty_world) = true /\
  exists s w1,
    handle (P := strict) precise
      (POST_status (VDoc [("client_name", VStr "acme")])) empty_world
    = (Ok (AStatusCheck s), w1) /\
    StatusCheck.client_name s = "acme" /\
    StatusCheck.id s
    = uuid_str (uuid4_int (urandom precise (n_urandom empty_world))) /\
    String.length (StatusCheck.id s) = 36 /\
    StatusCheck.id s <> "" /\
    In (("_id", VOid (objectid precise (n_objectid empty_world)))
        :: bson_doc (StatusCheck.dict s))
       (db_status_checks (db w1)) /\
    List.length (db_status_checks (db w1))
    = S (List.length (db_status_checks (db empty_world))) /\
    (forallb is_StatusCheck_doc (db_status_checks (db empty_world)) = true ->
     List.length (db_status_checks (db empty_world)) < 1000 ->
     store_up precise (S (n_store empty_world)) = true ->
     exists l w2,
       handle (P := strict) precise GET_status w1
       = (Ok (StatusChecks l), w2) /\
       In (StatusCheck.mk (StatusCheck.id s) (StatusCheck.client_name s)
             (millis (StatusCheck.timestamp s))) l).
Proof.
  split; [reflexivity|].
  apply (post_then_list (P := strict) precise empty_world "acme").
  reflexivity.
Defined.

(** ** Store calls and failures *)

Lemma calls_bind_ret {A B} (m : M A) (f : A -> B) (w : World) :
  calls (x <- m ;; ret (f x)) w = calls m w.
Proof.
  unfold calls, bind, ret. destruct (m w) as [[a|e] w']; reflexivity.
Qed.

Lemma calls_of_trace {A} (m : M A) (w : World) (evs : list event) :
  trace (snd (m w)) = (trace w ++ evs)%list -> calls m w = evs.
Proof. unfold calls. intros ->. apply skipn_length_app. Qed.

Section MetricsFacts.
Context {P : Pydantic} (E : Env).

Lemma get_metrics_down (w : World) :
  store_up E (n_store w) = false ->
  get_metrics E w
  = (Raise StoreUnavailable, logged E trust_metrics FindOne w).
Proof.
  intros H0. unfold get_metrics, bind. rewrite (find_one_down _ _ _ H0).
  reflexivity.
Qed.

(** [get_metrics] when [find_one] finds nothing and the insert is not
    answered. *)
Lemma get_metrics_absent_down (w : World) :
  not_doc (hd_error (db_trust_metrics (db w))) = true ->
  store_up E (n_store w) = true ->
  store_up E (S (n_store w)) = false ->
  get_metrics E w
  = (Raise StoreUnavailable,
     mkWorld (db w) (S (n_urandom w)) (S (n_utcnow w)) (S (n_objectid w))
       (S (S (n_store w)))
       (trace w ++ [mkEvent trust_metrics FindOne true;
                    mkEvent trust_metrics InsertOne false])).
Proof.
  intros Hnot H0 H1. unfold get_metrics, bind at 1.
  rewrite (find_one_up _ _ _ H0). cbv beta iota.
  change (coll trust_metrics (db w)) with (db_trust_metrics (db w)).
  rewrite Hnot.
  unfold bind at 1. rewrite TrustMetrics_init_default.
  unfold bind. rewrite insert_one_down; [|reflexivity|exact H1].
  unfold logged. simpl. rewrite H0, <- app_assoc. reflexivity.
Qed.

(** [get_metrics] when [find_one] finds a document: whatever becomes of
    the construction, the store is not called again. *)
Lemma get_metrics_found (w : World) :
  store_up E (n_store w) = true ->
  not_doc (hd_error (db_trust_metrics (db w))) = false ->
  same_store_side (logged E trust_metrics FindOne w)
    (snd (get_metrics E w)).
Proof.
  intros H0 Hnot. unfold get_metrics, bind.
  rewrite (find_one_up _ _ _ H0). cbv beta iota.
  change (coll trust_metrics (db w)) with (db_trust_metrics (db w)).
  rewrite Hnot. apply TrustMetrics_init_store.
Qed.

Lemma get_metrics_calls (w : World) :
  calls (get_metrics E) w
  = mkEvent trust_metrics FindOne (store_up E (n_store w))
    :: (if store_up E (n_store w)
           && not_doc (hd_error (db_trust_metrics (db w)))
        then [mkEvent trust_metrics InsertOne (store_up E (S (n_store w)))]
        else []).
Proof.
  apply calls_of_trace.
  destruct (store_up E (n_store w)) eqn:H0.
  - destruct (not_doc (hd_error (db_trust_metrics (db w)))) eqn:Hnot.
    + destruct (store_up E (S (n_store w))) eqn:H1.
      * rewrite get_metrics_absent by assumption. reflexivity.
      * rewrite get_metrics_absent_down by assumption. reflexivity.
    + destruct (get_metrics_found w H0 Hnot) as [_ [_ ->]].
      unfold logged. simpl. rewrite H0. reflexivity.
  - rewrite get_metrics_down by assumption. unfold logged. simpl.
    rewrite H0. reflexivity.
Qed.

Lemma get_status_checks_calls (w : World) :
  calls (get_status_checks E) w
  = [mkEvent status_checks (FindToList 1000) (store_up E (n_store w))].
Proof.
  apply calls_of_trace. unfold get_status_checks, bind.
  destruct (store_up E (n_store w)) eqn:H0.
  - rewrite (find_to_list_up _ _ _ _ H0).
    destruct (mapM_StatusCheck_init_store E
                (firstn 1000 (coll status_checks (db w)))
                (logged E status_checks (FindToList 1000) w))
      as [_ [_ ->]].
    unfold logged. simpl. rewrite H0. reflexivity.
  - rewrite (find_to_list_down _ _ _ _ H0). unfold logged. simpl.
    rewrite H0. reflexivity.
Qed.

Lemma create_status_check_calls (input : StatusCheckCreate.t) (w : World) :
  calls (create_status_check E input) w
  = [mkEvent status_checks InsertOne (store_up E (n_store w))].
Proof.
  apply calls_of_trace. rewrite create_status_check_run. cbv zeta.
  destruct (store_up E (n_store w)); reflexivity.
Qed.

Lemma handle_POST_status (body : value) (w : World) :
  handle E (POST_status body) w
  = match fst (parse_body body w) with
    | Ok input =>
        (s <- create_status_check E input ;; ret (AStatusCheck s)) w
    | Raise e => (Raise e, w)
    end.
Proof.
  unfold handle, bind at 1. pose proof (parse_body_world body w) as Hw.
  destruct (parse_body body w) as [[input|e] w0]; simpl in *; subst;
    reflexivity.
Qed.

End MetricsFacts.

(** *** The documents of [status_checks] *)

Lemma snd_bind_ret {A B} (m : M A) (f : A -> B) (w : World) :
  snd ((x <- m ;; ret (f x)) w) = snd (m w).
Proof. unfold bind, ret. destruct (m w) as [[a|e] w']; reflexivity. Qed.

Section Invariant.
Context {P : Pydantic} (E : Env).

Lemma get_status_checks_db (w : World) :
  db (snd (get_status_checks E w)) = db w.
Proof.
  unfold get_status_checks, bind.
  destruct (store_up E (n_store w)) eqn:H0.
  - rewrite (find_to_list_up _ _ _ _ H0).
    destruct (mapM_StatusCheck_init_store E
                (firstn 1000 (coll status_checks (db w)))
                (logged E status_checks (FindToList 1000) w))
      as [-> _].
    reflexivity.
  - rewrite (find_to_list_down _ _ _ _ H0). reflexivity.
Qed.

Lemma get_metrics_status_checks (w : World) :
  db_status_checks (db (snd (get_metrics E w))) = db_status_checks (db w).
Proof.
  destruct (store_up E (n_store w)) eqn:H0.
  - destruct (not_doc (hd_error (db_trust_metrics (db w)))) eqn:Hnot.
    + destruct (store_up E (S (n_store w))) eqn:H1.
      * rewrite get_metrics_absent by assumption. reflexivity.
      * rewrite get_metrics_absent_down by assumption. reflexivity.
    + destruct (get_metrics_found E w H0 Hnot) as [-> _]. reflexivity.
  - rewrite get_metrics_down by assumption. reflexivity.
Qed.

(** Whatever the request and whether or not the store answers, a
    [status_checks] collection of status-check documents stays one: the
    documents the server writes are the ones [GET /status] can read. *)
Lemma handle_keeps_status_checks (r : request) (w : World) :
  forallb is_StatusCheck_doc (db_status_checks (db w)) = true ->
  forallb is_StatusCheck_doc
    (db_status_checks (db (snd (handle E r w)))) = true.
Proof.
  intros H. destruct r as [|body| |].
  - exact H.
  - rewrite handle_POST_status.
    destruct (fst (parse_body body w)) as [input|err]; [|exact H].
    rewrite snd_bind_ret, create_status_check_run. cbv zeta.
    destruct (store_up E (n_store w)); [|exact H].
    cbn [snd db db_status_checks]. rewrite forallb_place, H.
    unfold is_StatusCheck_doc. rewrite StatusCheck_of_stored. reflexivity.
  - unfold handle. rewrite snd_bind_ret, get_status_checks_db. exact H.
  - unfold handle. rewrite snd_bind_ret, get_metrics_status_checks. exact H.
Qed.

End Invariant.

(** C4, as stated, fails: on an empty store [GET /metrics] makes two calls
    to the store, the read and the insert, not one. *)
Lemma get_metrics_on_empty_store_calls_twice :
  calls (handle (P := strict) calm GET_metrics) empty_world
  = [mkEvent trust_metrics FindOne true;
     mkEvent trust_metrics InsertOne true] /\
  List.length (calls (handle (P := strict) calm GET_metrics) empty_world)
  <> 1.
Proof. split; [reflexivity|discriminate]. Qed.

(** C4, amended.  Every route touches at most one collection, with at most
    two calls to the store: [GET /] makes none; [POST /status] makes one
    insert into [status_checks] (none when the body is refused);
    [GET /status] makes one read of [status_checks]; [GET /metrics] makes
    one read of [trust_metrics], followed by one insert into
    [trust_metrics] when the read is answered and finds no document. *)
Theorem store_calls_of_each_route {P : Pydantic} (E : Env) (r : request)
    (w : World) :
  let up := store_up E (n_store w) in
  calls (handle E r) w
  = match r with
    | GET_root => []
    | POST_status body =>
        match fst (parse_body body w) with
        | Ok _ => [mkEvent status_checks InsertOne up]
        | Raise _ => []
        end
    | GET_status => [mkEvent status_checks (FindToList 1000) up]
    | GET_metrics =>
        mkEvent trust_metrics FindOne up
        :: (if up && not_doc (hd_error (db_trust_metrics (db w)))
            then [mkEvent trust_metrics InsertOne
                    (store_up E (S (n_store w)))]
            else [])
    end /\
  (forall e e',
     In e (calls (handle E r) w) -> In e' (calls (handle E r) w) ->
     ev_coll e = ev_coll e') /\
  List.length (calls (handle E r) w) <= 2.
Proof.
  cbv zeta.
  assert (Hcalls :
    calls (handle E r) w
    = match r with
      | GET_root => []
      | POST_status body =>
          match fst (parse_body body w) with
          | Ok _ => [mkEvent status_checks InsertOne (store_up E (n_store w))]
          | Raise _ => []
          end
      | GET_status =>
          [mkEvent status_checks (FindToList 1000) (store_up E (n_store w))]
      | GET_metrics =>
          mkEvent trust_metrics FindOne (store_up E (n_store w))
          :: (if store_up E (n_store w)
                 && not_doc (hd_error (db_trust_metrics (db w)))
              then [mkEvent trust_metrics InsertOne
                      (store_up E (S (n_store w)))]
              else [])
      end).
  { destruct r as [|body| |].
    - unfold calls. simpl. apply skipn_all.
    - unfold calls at 1. rewrite handle_POST_status.
      destruct (fst (parse_body body w)) as [input|e].
      + apply (eq_trans (calls_bind_ret _ AStatusCheck w)).
        apply create_status_check_calls.
      + simpl. apply skipn_all.
    - unfold handle. rewrite calls_bind_ret. apply get_status_checks_calls.
    - unfold handle. rewrite calls_bind_ret. apply get_metrics_calls. }
  rewrite Hcalls. split; [reflexivity|].
  destruct r as [|body| |].
  - split; [intros e e' []|simpl; lia].
  - destruct (fst (parse_body body w)) as [input|err].
    + split; [intros e e' [<-|[]] [<-|[]]; reflexivity|simpl; lia].
    + split; [intros e e' []|simpl; lia].
  - split; [intros e e' [<-|[]] [<-|[]]; reflexivity|simpl; lia].
  - destruct (store_up E (n_store w)
              && not_doc (hd_error (db_trust_metrics (db w)))).
    + split; [|simpl; lia].
      intros e e' [<-|[<-|[]]] [<-|[<-|[]]]; reflexivity.
    + split; [intros e e' [<-|[]] [<-|[]]; reflexivity|simpl; lia].
Qed.

(** C7. In every run of [GET /metrics] in which a call to the store is not
    answered, the handler raises [StoreUnavailable]; the unanswered call is
    the last one it makes (either the read, or the insert after an answered
    read), no call is made twice, and the collections are as they were
    before the request. *)
Theorem get_metrics_store_failure {P : Pydantic} (E : Env) (w : World) :
  (exists e, In e (calls (get_metrics E) w) /\ ev_ok e = false) ->
  fst (get_metrics E w) = Raise StoreUnavailable /\
  db (snd (get_metrics E w)) = db w /\
  (calls (get_metrics E) w = [mkEvent trust_metrics FindOne false] \/
   calls (get_metrics E) w
   = [mkEvent trust_metrics FindOne true;
      mkEvent trust_metrics InsertOne false]) /\
  NoDup (map ev_call (calls (get_metrics E) w)).
Proof.
  intros [e [Hin Hfail]]. rewrite get_metrics_calls in *.
  destruct (store_up E (n_store w)) eqn:H0.
  - destruct (not_doc (hd_error (db_trust_metrics (db w)))) eqn:Hnot;
      simpl in Hin.
    + destruct (store_up E (S (n_store w))) eqn:H1.
      * destruct Hin as [<-|[<-|[]]]; discriminate Hfail.
      * rewrite get_metrics_absent_down by assumption. simpl.
        split; [reflexivity|]. split; [reflexivity|]. split; [now right|].
        repeat constructor; simpl; intuition discriminate.
    + destruct Hin as [<-|[]]. discriminate Hfail.
  - rewrite get_metrics_down by assumption. simpl.
    split; [reflexivity|]. split; [reflexivity|]. split; [now left|].
    repeat constructor; simpl; intuition.
Qed.

Lemma get_metrics_store_failure_witness :
  (exists e,
     In e (calls (get_metrics (P := strict) (failing_from 1)) empty_world) /\
     ev_ok e = false) /\
  fst (get_metrics (P := strict) (failing_from 1) empty_world)
  = Raise StoreUnavailable /\
  db (snd (get_metrics (P := strict) (failing_from 1) empty_world))
  = db empty_world /\
  (calls (get_metrics (P := strict) (failing_from 1)) empty_world
   = [mkEvent trust_metrics FindOne false] \/
   calls (get_metrics (P := strict) (failing_from 1)) empty_world
   = [mkEvent trust_metrics FindOne true;
      mkEvent trust_metrics InsertOne false]) /\
  NoDup (map ev_call
           (calls (get_metrics (P := strict) (failing_from 1)) empty_world)).
Proof.
  assert (H : exists e,
             In e (calls (get_metrics (P := strict) (failing_from 1))
                     empty_world) /\
             ev_ok e = false).
  { exists (mkEvent trust_metrics InsertOne false).
    split; [right; left; reflexivity|reflexivity]. }
  split; [exact H|].
  exact (get_metrics_store_failure (P := strict) (failing_from 1)
           empty_world H).
Defined.

(** C9. When the document found in [trust_metrics] carries the id, items
    and updated_at of a [TrustMetrics] value, together with any other
    fields, [GET /metrics] accepts it and returns that value: the response
    has the fields id, items and updated_at and no other, so the other
    fields of the stored document are neither returned nor a reason to
    refuse it. *)
Theorem get_metrics_drops_unknown_fields {P : Pydantic} (E : Env)
    (w : World) (d : doc) (tm : TrustMetrics.t) :
  hd_error (db_trust_metrics (db w)) = Some d ->
  get "id" d = Some (VStr (TrustMetrics.id tm)) ->
  get "items" d
  = Some (VList (map (fun i => VDoc (MetricItem.dict i))
                     (TrustMetrics.items tm))) ->
  get "updated_at" d = Some (VDate (TrustMetrics.updated_at tm)) ->
  store_answers E w 1 ->
  fst (get_metrics E w) = Ok tm /\
  keys (TrustMetrics.dict tm) = ["id"; "items"; "updated_at"] /\
  (forall k, get k (TrustMetrics.dict tm) <> None ->
             k = "id" \/ k = "items" \/ k = "updated_at").
Proof.
  intros Hd Hi Hl Ht Hup.
  pose proof (store_answers_first _ _ _ Hup) as H0.
  rewrite (get_metrics_present E w d tm Hd Hi Hl Ht H0).
  split; [reflexivity|]. split; [reflexivity|].
  intros k. unfold TrustMetrics.dict. cbn [get].
  destruct (String.eqb_spec "id" k) as [<-|_]; [auto|].
  destruct (String.eqb_spec "items" k) as [<-|_]; [auto|].
  destruct (String.eqb_spec "updated_at" k) as [<-|_]; [auto|].
  intros H. exfalso. apply H. reflexivity.
Qed.

Lemma get_metrics_drops_unknown_fields_witness :
  hd_error (db_trust_metrics (db world_with_extras)) = Some doc_with_extras /\
  get "note" doc_with_extras = Some (VStr "edited by hand") /\
  store_answers calm world_with_extras 1 /\
  fst (get_metrics (P := strict) calm world_with_extras) = Ok seven_items /\
  keys (TrustMetrics.dict seven_items) = ["id"; "items"; "updated_at"] /\
  (forall k, get k (TrustMetrics.dict seven_items) <> None ->
             k = "id" \/ k = "items" \/ k = "updated_at").
Proof.
  split; [reflexivity|]. split; [reflexivity|].
  split; [intros k _; reflexivity|].
  apply (get_metrics_drops_unknown_fields (P := strict) calm
           world_with_extras doc_with_extras seven_items);
    [reflexivity|reflexivity|reflexivity|reflexivity
    |intros k _; reflexivity].
Defined.

(** C10. Of the body of [POST /status] only [client_name] is read: two
    bodies with the same [client_name] give, in the same world, the same
    response and the same world; and the records created for them in any
    two worlds have the same client name, while the id of each comes from
    the entropy drawn and the timestamp from the clock read during its
    request, whatever id, timestamp or other fields the bodies carry. *)
Theorem post_status_reads_client_name_only {P : Pydantic} (E : Env)
    (d1 d2 : doc) :
  get "client_name" d1 = get "client_name" d2 ->
  (forall w,
     handle E (POST_status (VDoc d1)) w
     = handle E (POST_status (VDoc d2)) w) /\
  (forall w1 w2 s1 s2 w1' w2',
     handle E (POST_status (VDoc d1)) w1 = (Ok (AStatusCheck s1), w1') ->
     handle E (POST_status (VDoc d2)) w2 = (Ok (AStatusCheck s2), w2') ->
     StatusCheck.client_name s1 = StatusCheck.client_name s2 /\
     StatusCheck.id s1 = uuid_str (uuid4_int (urandom E (n_urandom w1))) /\
     StatusCheck.timestamp s1 = utcnow E (n_utcnow w1) /\
     StatusCheck.id s2 = uuid_str (uuid4_int (urandom E (n_urandom w2))) /\
     StatusCheck.timestamp s2 = utcnow E (n_utcnow w2)).
Proof.
  intros Hname.
  assert (Hparse : forall w,
             parse_body (VDoc d1) w = parse_body (VDoc d2) w).
  { intros w. unfold parse_body, StatusCheckCreate_init, field_required.
    rewrite Hname. reflexivity. }
  split.
  - intros w. rewrite !handle_POST_status, Hparse. reflexivity.
  - intros w1 w2 s1 s2 w1' w2'.
    rewrite !handle_POST_status, (Hparse w1).
    unfold parse_body, StatusCheckCreate_init, ret, raise.
    destruct (field_required "client_name" str_validator d2) as [c|];
      simpl; [|discriminate].
    unfold bind. rewrite !create_status_check_run. cbv zeta.
    destruct (store_up E (n_store w1)); [|discriminate].
    destruct (store_up E (n_store w2)); [|discriminate].
    unfold ret. intros [= <- _] [= <- _]. repeat split; reflexivity.
Qed.

Lemma post_status_reads_client_name_only_witness :
  get "client_name" plain_body = get "client_name" body_with_extras /\
  (forall w,
     handle (P := strict) calm (POST_status (VDoc plain_body)) w
     = handle (P := strict) calm (POST_status (VDoc body_with_extras)) w) /\
  (forall w1 w2 s1 s2 w1' w2',
     handle (P := strict) calm (POST_status (VDoc plain_body)) w1
     = (Ok (AStatusCheck s1), w1') ->
     handle (P := strict) calm (POST_status (VDoc body_with_extras)) w2
     = (Ok (AStatusCheck s2), w2') ->
     StatusCheck.client_name s1 = StatusCheck.client_name s2 /\
     StatusCheck.id s1
     = uuid_str (uuid4_int (urandom calm (n_urandom w1))) /\
     StatusCheck.timestamp s1 = utcnow calm (n_utcnow w1) /\
     StatusCheck.id s2
     = uuid_str (uuid4_int (urandom calm (n_urandom w2))) /\
     StatusCheck.timestamp s2 = utcnow calm (n_utcnow w2)).
Proof.
  split; [reflexivity|].
  apply (post_status_reads_client_name_only (P := strict) calm plain_body
           body_with_extras).
  reflexivity.
Defined.

Example post_with_client_id_and_timestamp :
  fst (handle (P := strict) calm (POST_status (VDoc body_with_extras))
         empty_world)
  = Ok (AStatusCheck
          (StatusCheck.mk "01234567-89ab-4def-8123-456789abcdef" "acme"
             1704067200000000)).
Proof. reflexivity. Qed.

(** ** Further properties of the models and the routes *)

Section MoreModelFacts.
Context {P : Pydantic} (E : Env).

(** Building a [StatusCheck] raises nothing but [ValidationError]. *)
Lemma StatusCheck_init_error (d : doc) (w : World) (e : error) :
  fst (StatusCheck_init E d w) = Raise e -> e = ValidationError.
Proof.
  unfold StatusCheck_init, field_default_factory, field_required, bind,
    ret, raise, new_id, uuid4, datetime_utcnow.
  destruct (get "id" d); destruct (get "timestamp" d); simpl;
    repeat match goal with
           | |- context [match ?x with _ => _ end] => destruct x; simpl
           end; congruence.
Qed.

Lemma StatusCheck_init_no_client_name (d : doc) (w : World) :
  get "client_name" d = None ->
  fst (StatusCheck_init E d w) = Raise ValidationError.
Proof.
  intros Hc.
  unfold StatusCheck_init, field_default_factory, field_required, bind,
    ret, raise, new_id, uuid4, datetime_utcnow.
  rewrite Hc.
  destruct (get "id" d); destruct (get "timestamp" d); simpl;
    repeat match goal with
           | |- context [match ?x with _ => _ end] => destruct x; simpl
           end; reflexivity.
Qed.

(** One document without [client_name] makes the whole list fail. *)
Lemma mapM_StatusCheck_init_broken (l : list doc) (d : doc) :
  In d l -> get "client_name" d = None ->
  forall w, fst (mapM (StatusCheck_init E) l w) = Raise ValidationError.
Proof.
  intros Hin Hc. induction l as [|d0 l IH]; [contradiction|].
  intros w. simpl. unfold bind.
  destruct (StatusCheck_init E d0 w) as [[s|e] w1] eqn:H0.
  - destruct Hin as [->|Hin].
    + pose proof (StatusCheck_init_no_client_name d w Hc) as H.
      rewrite H0 in H. discriminate H.
    + specialize (IH Hin w1).
      destruct (mapM (StatusCheck_init E) l w1) as [[ss|e] w2];
        simpl in *; [discriminate IH|exact IH].
  - pose proof (StatusCheck_init_error d0 w e) as H. rewrite H0 in H.
    simpl. rewrite (H eq_refl). reflexivity.
Qed.

(** Building a [TrustMetrics] raises nothing but [ValidationError]. *)
Lemma TrustMetrics_init_error (d : doc) (w : World) (e : error) :
  fst (TrustMetrics_init E d w) = Raise e -> e = ValidationError.
Proof.
  unfold TrustMetrics_init, field_default_factory, field_required, bind,
    ret, raise, new_id, uuid4, datetime_utcnow.
  destruct (get "id" d); destruct (get "updated_at" d); simpl;
    repeat match goal with
           | |- context [match ?x with _ => _ end] => destruct x; simpl
           end; congruence.
Qed.

Lemma mapM_StatusCheck_init_error (l : list doc) :
  forall w e,
    fst (mapM (StatusCheck_init E) l w) = Raise e -> e = ValidationError.
Proof.
  induction l as [|d l IH]; intros w e; simpl; [discriminate|].
  unfold bind.
  destruct (StatusCheck_init E d w) as [[s|e0] w1] eqn:H0.
  - specialize (IH w1 e).
    destruct (mapM (StatusCheck_init E) l w1) as [[ss|e1] w2]; simpl in *;
      [discriminate|exact IH].
  - simpl. intros [= <-]. apply (StatusCheck_init_error d w).
    rewrite H0. reflexivity.
Qed.

End MoreModelFacts.

(** X1. A [StatusCheck] survives the trip through its dictionary: built
    again from [s.dict()], alone or under the [_id] the store adds, it is
    [s], and neither [uuid4] nor the clock is consulted. *)
Theorem StatusCheck_round_trip {P : Pydantic} (E : Env)
    (s : StatusCheck.t) (w : World) :
  StatusCheck_init E (StatusCheck.dict s) w = (Ok s, w) /\
  forall i, StatusCheck_init E (("_id", i) :: StatusCheck.dict s) w
            = (Ok s, w).
Proof.
  split; [|intros i]; apply StatusCheck_init_of_doc.
  - apply StatusCheck_of_doc_dict.
  - apply StatusCheck_of_stored.
Qed.

(** X2. A [TrustMetrics] with all its items survives the trip through its
    dictionary, and so does each [MetricItem], with or without an icon. *)
Theorem TrustMetrics_round_trip {P : Pydantic} (E : Env)
    (tm : TrustMetrics.t) (w : World) :
  TrustMetrics_init E (TrustMetrics.dict tm) w = (Ok tm, w) /\
  forall m, MetricItem_init (MetricItem.dict m) = Some m.
Proof.
  split.
  - apply TrustMetrics_init_fields; reflexivity.
  - apply MetricItem_init_dict.
Qed.

(** X3. [POST /status] with a body that is no object, or an object without
    [client_name], is refused with [ValidationError] before the handler
    runs: no id is drawn, the clock is not read, the store is not called,
    and the world is what it was. *)
Theorem post_status_without_client_name {P : Pydantic} (E : Env)
    (body : value) (w : World) :
  lacks_client_name body = true ->
  handle E (POST_status body) w = (Raise ValidationError, w) /\
  calls (handle E (POST_status body)) w = [].
Proof.
  intros H.
  assert (Hrun : handle E (POST_status body) w = (Raise ValidationError, w)).
  { unfold handle, bind, parse_body, StatusCheckCreate_init, field_required,
      raise.
    destruct body; try reflexivity. simpl in H.
    destruct (get "client_name" d); [discriminate H|reflexivity]. }
  split; [exact Hrun|].
  unfold calls. rewrite Hrun. apply skipn_all.
Qed.

Lemma post_status_without_client_name_witness :
  lacks_client_name (VDoc [("name", VStr "acme")]) = true /\
  handle (P := strict) calm (POST_status (VDoc [("name", VStr "acme")]))
    empty_world
  = (Raise ValidationError, empty_world) /\
  calls (handle (P := strict) calm
           (POST_status (VDoc [("name", VStr "acme")]))) empty_world = [].
Proof.
  split; [reflexivity|].
  apply (post_status_without_client_name (P := strict) calm
           (VDoc [("name", VStr "acme")]) empty_world).
  reflexivity.
Defined.

(** X4. When the store does not answer the insert of [POST /status], the
    request raises [StoreUnavailable] and both collections are as before;
    the id, the timestamp and the [_id] of the record that was not stored
    have been drawn all the same. *)
Theorem post_status_store_down {P : Pydantic} (E : Env) (name : string)
    (w : World) :
  store_up E (n_store w) = false ->
  exists w',
    handle E (POST_status (VDoc [("client_name", VStr name)])) w
    = (Raise StoreUnavailable, w') /\
    db w' = db w /\
    trace w' = (trace w ++ [mkEvent status_checks InsertOne false])%list /\
    n_urandom w' = S (n_urandom w) /\
    n_utcnow w' = S (n_utcnow w) /\
    n_objectid w' = S (n_objectid w).
Proof.
  intros H0. eexists. split.
  - unfold handle, bind at 1. rewrite parse_body_client_name.
    unfold bind. rewrite create_status_check_run. cbv zeta. rewrite H0.
    reflexivity.
  - repeat split; reflexivity.
Qed.

Lemma post_status_store_down_witness :
  store_up (failing_from 0) (n_store empty_world) = false /\
  exists w',
    handle (P := strict) (failing_from 0)
      (POST_status (VDoc [("client_name", VStr "acme")])) empty_world
    = (Raise StoreUnavailable, w') /\
    db w' = db empty_world /\
    trace w'
    = (trace empty_world ++ [mkEvent status_checks InsertOne false])%list /\
    n_urandom w' = S (n_urandom empty_world) /\
    n_utcnow w' = S (n_utcnow empty_world) /\
    n_objectid w' = S (n_objectid empty_world).
Proof.
  split; [reflexivity|].
  apply (post_status_store_down (P := strict) (failing_from 0) "acme"
           empty_world).
  reflexivity.
Defined.

(** X5. Reading does not write: [GET /] and [GET /status] leave both
    collections as they were in every world, whatever the documents and
    whether or not the store answers; so does [GET /metrics] whenever
    [trust_metrics] starts with a document that is not empty. *)
Theorem reads_do_not_write {P : Pydantic} (E : Env) (w : World) :
  db (snd (handle E GET_root w)) = db w /\
  db (snd (handle E GET_status w)) = db w /\
  (not_doc (hd_error (db_trust_metrics (db w))) = false ->
   db (snd (handle E GET_metrics w)) = db w).
Proof.
  split; [reflexivity|]. split.
  - unfold handle. rewrite snd_bind_ret. apply get_status_checks_db.
  - intros Hnot. unfold handle. rewrite snd_bind_ret.
    destruct (store_up E (n_store w)) eqn:H0.
    + destruct (get_metrics_found E w H0 Hnot) as [-> _]. reflexivity.
    + rewrite get_metrics_down by assumption. reflexivity.
Qed.

(** X6. [GET /status] validates every document it read: when one of the
    first 1000 documents of [status_checks] has no [client_name], the
    request raises [ValidationError] instead of returning the other
    records, and the collection keeps the document. *)
Theorem get_status_checks_broken_document {P : Pydantic} (E : Env)
    (w : World) (d : doc) :
  store_up E (n_store w) = true ->
  In d (firstn 1000 (db_status_checks (db w))) ->
  get "client_name" d = None ->
  fst (handle E GET_status w) = Raise ValidationError /\
  db (snd (handle E GET_status w)) = db w.
Proof.
  intros H0 Hin Hc. split.
  - unfold handle, bind at 1, get_status_checks, bind at 1.
    rewrite (find_to_list_up _ _ _ _ H0).
    pose proof (mapM_StatusCheck_init_broken E _ d Hin Hc
                  (logged E status_checks (FindToList 1000) w)) as H.
    change (coll status_checks (db w)) with (db_status_checks (db w)).
    destruct (mapM (StatusCheck_init E)
                (firstn 1000 (db_status_checks (db w)))
                (logged E status_checks (FindToList 1000) w))
      as [[ss|e] w2]; simpl in *; [discriminate H|].
    injection H as ->. reflexivity.
  - unfold handle. rewrite snd_bind_ret. apply get_status_checks_db.
Qed.

Lemma get_status_checks_broken_document_witness :
  store_up calm (n_store world_with_broken_status) = true /\
  In [("_id", VOid 1); ("id", VStr "b");
      ("timestamp", VDate 1704067201000000)]
     (firstn 1000 (db_status_checks (db world_with_broken_status))) /\
  get "client_name"
      [("_id", VOid 1); ("id", VStr "b");
       ("timestamp", VDate 1704067201000000)] = None /\
  fst (handle (P := strict) calm GET_status world_with_broken_status)
  = Raise ValidationError /\
  db (snd (handle (P := strict) calm GET_status world_with_broken_status))
  = db world_with_broken_status.
Proof.
  split; [reflexivity|]. split; [right; left; reflexivity|].
  split; [reflexivity|].
  apply (get_status_checks_broken_document (P := strict) calm
           world_with_broken_status
           [("_id", VOid 1); ("id", VStr "b");
            ("timestamp", VDate 1704067201000000)]);
    [reflexivity|right; left; reflexivity|reflexivity].
Defined.

(** *** What a request does to the collections *)

Lemma fst_bind_ret {A B} (m : M A) (f : A -> B) (w : World) :
  fst ((x <- m ;; ret (f x)) w)
  = match fst (m w) with Ok a => Ok (f a) | Raise e => Raise e end.
Proof. unfold bind, ret. destruct (m w) as [[a|e] w']; reflexivity. Qed.

Lemma store_answers_shift (E : Env) (w w1 : World) (n : nat) :
  n_store w1 = S (n_store w) ->
  store_answers E w (S n) -> store_answers E w1 n.
Proof.
  intros Hn H k Hk. rewrite Hn.
  replace (S (n_store w) + k) with (n_store w + S k) by lia.
  apply H. lia.
Qed.

Lemma store_answers_fewer (E : Env) (w : World) (n m : nat) :
  m <= n -> store_answers E w n -> store_answers E w m.
Proof. intros Hm H k Hk. apply H. lia. Qed.

Section RequestFacts.
Context {P : Pydantic} (E : Env).

(** The request body parser raises nothing but [ValidationError]. *)
Lemma parse_body_error (body : value) (w : World) (e : error) :
  fst (parse_body body w) = Raise e -> e = ValidationError.
Proof.
  unfold parse_body, StatusCheckCreate_init, raise, ret.
  destruct body; simpl; try congruence.
  destruct (field_required "client_name" str_validator d); simpl;
    congruence.
Qed.

(** A request either leaves the collections alone or has one document
    placed in the collection of its route. *)
Lemma handle_db (r : request) (w : World) :
  db (snd (handle E r w)) = db w \/
  exists c d back,
    route_collection r = Some c /\
    db (snd (handle E r w)) = set_coll c (place back d (coll c (db w))) (db w).
Proof.
  destruct r as [|body| |].
  - left. reflexivity.
  - rewrite handle_POST_status.
    destruct (fst (parse_body body w)) as [input|err]; [|left; reflexivity].
    rewrite snd_bind_ret, create_status_check_run. cbv zeta.
    destruct (store_up E (n_store w)); [|left; reflexivity].
    right. eexists status_checks, _, _. split; reflexivity.
  - left. unfold handle. rewrite snd_bind_ret. apply get_status_checks_db.
  - unfold handle. rewrite snd_bind_ret.
    destruct (store_up E (n_store w)) eqn:H0.
    + destruct (not_doc (hd_error (db_trust_metrics (db w)))) eqn:Hnot.
      * destruct (store_up E (S (n_store w))) eqn:H1.
        -- right. eexists trust_metrics, _, _. split; [reflexivity|].
           rewrite get_metrics_absent by assumption. reflexivity.
        -- left. rewrite get_metrics_absent_down by assumption.
           reflexivity.
      * left. destruct (get_metrics_found E w H0 Hnot) as [-> _].
        reflexivity.
    + left. rewrite get_metrics_down by assumption. reflexivity.
Qed.

(** The store calls of each route. *)
Lemma handle_calls (r : request) (w : World) :
  calls (handle E r) w
  = match r with
    | GET_root => []
    | POST_status body =>
        match fst (parse_body body w) with
        | Ok _ => [mkEvent status_checks InsertOne (store_up E (n_store w))]
        | Raise _ => []
        end
    | GET_status =>
        [mkEvent status_checks (FindToList 1000) (store_up E (n_store w))]
    | GET_metrics =>
        mkEvent trust_metrics FindOne (store_up E (n_store w))
        :: (if store_up E (n_store w)
               && not_doc (hd_error (db_trust_metrics (db w)))
            then [mkEvent trust_metrics InsertOne
                    (store_up E (S (n_store w)))]
            else [])
    end.
Proof.
  destruct r as [|body| |].
  - unfold calls. simpl. apply skipn_all.
  - unfold calls at 1. rewrite handle_POST_status.
    destruct (fst (parse_body body w)) as [input|e].
    + apply (eq_trans (calls_bind_ret _ AStatusCheck w)).
      apply create_status_check_calls.
    + simpl. apply skipn_all.
  - unfold handle. rewrite calls_bind_ret. apply get_status_checks_calls.
  - unfold handle. rewrite calls_bind_ret. apply get_metrics_calls.
Qed.

(** The outcome of [get_metrics], by what the store does. *)
Lemma get_metrics_outcome (w : World) :
  fst (get_metrics E w)
  = if store_up E (n_store w) then
      if not_doc (hd_error (db_trust_metrics (db w))) then
        if store_up E (S (n_store w)) then Ok (default_metrics E w)
        else Raise StoreUnavailable
      else
        fst (TrustMetrics_init E
               (pop "_id"
                  (match hd_error (db_trust_metrics (db w)) with
                   | Some d => d
                   | None => []
                   end))
               (logged E trust_metrics FindOne w))
    else Raise StoreUnavailable.
Proof.
  destruct (store_up E (n_store w)) eqn:H0.
  - destruct (not_doc (hd_error (db_trust_metrics (db w)))) eqn:Hnot.
    + destruct (store_up E (S (n_store w))) eqn:H1.
      * rewrite get_metrics_absent by assumption. reflexivity.
      * rewrite get_metrics_absent_down by assumption. reflexivity.
    + unfold get_metrics, bind. rewrite (find_one_up _ _ _ H0).
      cbv beta iota.
      change (coll trust_metrics (db w)) with (db_trust_metrics (db w)).
      rewrite Hnot. reflexivity.
  - rewrite get_metrics_down by assumption. reflexivity.
Qed.

Lemma get_status_checks_outcome (w : World) :
  fst (get_status_checks E w)
  = if store_up E (n_store w) then
      fst (mapM (StatusCheck_init E)
             (firstn 1000 (db_status_checks (db w)))
             (logged E status_checks (FindToList 1000) w))
    else Raise StoreUnavailable.
Proof.
  unfold get_status_checks, bind.
  destruct (store_up E (n_store w)) eqn:H0.
  - rewrite (find_to_list_up _ _ _ _ H0). reflexivity.
  - rewrite (find_to_list_down _ _ _ _ H0). reflexivity.
Qed.

Lemma handle_POST_status_up (name : string) (w : World) :
  store_up E (n_store w) = true ->
  handle E (POST_status (VDoc [("client_name", VStr name)])) w
  = (Ok (AStatusCheck (new_status_check E name w)),
     mkWorld
       (mkStore
          (place (placement E (n_store w))
             (("_id", VOid (objectid E (n_objectid w)))
              :: StatusCheck.dict
                   (StatusCheck_stored (new_status_check E name w)))
             (db_status_checks (db w)))
          (db_trust_metrics (db w)))
       (S (n_urandom w)) (S (n_utcnow w)) (S (n_objectid w))
       (S (n_store w)) (trace w ++ [mkEvent status_checks InsertOne true])).
Proof.
  intros H0. unfold handle, bind at 1. rewrite parse_body_client_name.
  unfold bind. rewrite create_status_check_run. cbv zeta. rewrite H0.
  reflexivity.
Qed.

End RequestFacts.

(** X7. Requests only ever add: after any request, answered or not,
    each collection holds the documents it held, in the same order, and
    at most one new document among them; and a collection that is not
    the one of the route is exactly what it was.  No route removes or
    rewrites a stored document. *)
Theorem requests_only_add {P : Pydantic} (E : Env) (r : request)
    (w : World) (c : collection) :
  (exists l1 l2 new,
     coll c (db w) = (l1 ++ l2)%list /\
     coll c (db (snd (handle E r w))) = (l1 ++ new ++ l2)%list /\
     List.length new <= 1) /\
  (route_collection r <> Some c ->
   coll c (db (snd (handle E r w))) = coll c (db w)).
Proof.
  assert (Hsame : exists l1 l2 new,
             coll c (db w) = (l1 ++ l2)%list /\
             coll c (db w) = (l1 ++ new ++ l2)%list /\
             List.length new <= 1).
  { exists (coll c (db w)), [], []. simpl. rewrite app_nil_r. auto. }
  destruct (handle_db E r w) as [->|[c0 [d [back [Hr ->]]]]].
  - split; [exact Hsame|reflexivity].
  - rewrite Hr. split.
    + destruct c0, c; simpl; try exact Hsame;
        match goal with
        | |- context [place ?b ?x ?l] =>
            destruct (place_spec b x l) as [l1 [l2 [Hl ->]]];
            exists l1, l2, [x]; simpl; auto
        end.
    + intros Hne. destruct c0, c; simpl; congruence.
Qed.

(** X8. A request raises [StoreUnavailable] exactly when one of its calls
    to the store was not answered: an answered store never produces that
    error, and an unanswered call is never swallowed. *)
Theorem store_unavailable_iff_unanswered {P : Pydantic} (E : Env)
    (r : request) (w : World) :
  fst (handle E r w) = Raise StoreUnavailable <->
  exists e, In e (calls (handle E r) w) /\ ev_ok e = false.
Proof.
  rewrite handle_calls. destruct r as [|body| |].
  - simpl. split; [discriminate|intros [e [[] _]]].
  - rewrite handle_POST_status.
    destruct (fst (parse_body body w)) as [input|err] eqn:Hp.
    + rewrite fst_bind_ret, create_status_check_run. cbv zeta.
      destruct (store_up E (n_store w)); simpl.
      * split; [discriminate|].
        intros [e [[<-|[]] He]]. discriminate He.
      * split; [|reflexivity]. intros _. eexists. split; [left|]; reflexivity.
    + simpl. rewrite (parse_body_error body w err Hp).
      split; [discriminate|intros [e [[] _]]].
  - unfold handle. rewrite fst_bind_ret, get_status_checks_outcome.
    destruct (store_up E (n_store w)).
    + split.
      * destruct (fst (mapM (StatusCheck_init E)
                         (firstn 1000 (db_status_checks (db w)))
                         (logged E status_checks (FindToList 1000) w)))
          as [ss|e] eqn:Hm; [discriminate|].
        rewrite (mapM_StatusCheck_init_error E _ _ _ Hm). discriminate.
      * intros [e [[<-|[]] He]]. discriminate He.
    + split; [|reflexivity]. intros _. eexists. split; [left|]; reflexivity.
  - unfold handle. rewrite fst_bind_ret, get_metrics_outcome.
    destruct (store_up E (n_store w)); simpl.
    + destruct (not_doc (hd_error (db_trust_metrics (db w)))).
      * destruct (store_up E (S (n_store w))); simpl.
        -- split; [discriminate|].
           intros [e [[<-|[<-|[]]] He]]; discriminate He.
        -- split; [|reflexivity]. intros _. eexists.
           split; [right; left|]; reflexivity.
      * split.
        -- match goal with
           | |- context [fst (TrustMetrics_init E ?d ?w0)] =>
               destruct (fst (TrustMetrics_init E d w0)) as [tm|e] eqn:Hm
           end; [discriminate|].
           rewrite (TrustMetrics_init_error E _ _ _ Hm). discriminate.
        -- intros [e [[<-|[]] He]]. discriminate He.
    + split; [|reflexivity]. intros _. eexists. split; [left|]; reflexivity.
Qed.

(** *** Repeated reads of the metrics *)

Section RepeatedReads.
Context {P : Pydantic} (E : Env).

(** Once [trust_metrics] starts with the document of [tm], every further
    read returns [tm] and leaves the collections alone. *)
Lemma get_metrics_times_present (d : doc) (tm : TrustMetrics.t) (n : nat) :
  get "id" d = Some (VStr (TrustMetrics.id tm)) ->
  get "items" d
  = Some (VList (map (fun i => VDoc (MetricItem.dict i))
                     (TrustMetrics.items tm))) ->
  get "updated_at" d = Some (VDate (TrustMetrics.updated_at tm)) ->
  forall w,
    hd_error (db_trust_metrics (db w)) = Some d ->
    store_answers E w n ->
    exists w',
      get_metrics_times E n w = (repeat (Ok tm) n, w') /\ db w' = db w.
Proof.
  intros Hi Hl Ht. induction n as [|n IH]; intros w Hd Hup.
  - exists w. split; reflexivity.
  - pose proof (store_answers_first _ _ _ Hup) as H0.
    simpl. rewrite (get_metrics_present E w d tm Hd Hi Hl Ht H0).
    destruct (IH (logged E trust_metrics FindOne w)) as [w' [Hrun Hdb]].
    + exact Hd.
    + apply (store_answers_shift E w); [reflexivity|exact Hup].
    + exists w'. rewrite Hrun. split; [reflexivity|exact Hdb].
Qed.

Lemma TrustMetrics_init_without_id (d : doc) (l : list MetricItem.t)
    (t : Z) (w : World) :
  get "id" d = None ->
  get "items" d = Some (VList (map (fun i => VDoc (MetricItem.dict i)) l)) ->
  get "updated_at" d = Some (VDate t) ->
  TrustMetrics_init E d w
  = (Ok (TrustMetrics.mk (uuid_str (uuid4_int (urandom E (n_urandom w))))
           l t),
     mkWorld (db w) (S (n_urandom w)) (n_utcnow w) (n_objectid w)
       (n_store w) (trace w)).
Proof.
  intros Hi Hl Ht.
  unfold TrustMetrics_init, field_default_factory, field_required, bind,
    new_id, uuid4, ret.
  rewrite Hi, Hl, Ht, datetime_validator_datetime, items_validator_dict.
  reflexivity.
Qed.

Lemma TrustMetrics_init_without_items (d : doc) (w : World) :
  get "items" d = None ->
  fst (TrustMetrics_init E d w) = Raise ValidationError.
Proof.
  intros Hl.
  unfold TrustMetrics_init, field_default_factory, field_required, bind,
    ret, raise, new_id, uuid4, datetime_utcnow.
  rewrite Hl.
  destruct (get "id" d); destruct (get "updated_at" d); simpl;
    repeat match goal with
           | |- context [match ?x with _ => _ end] => destruct x; simpl
           end; reflexivity.
Qed.

(** [get_metrics] on a found document without [id]. *)
Lemma get_metrics_without_id (w : World) (d : doc)
    (l : list MetricItem.t) (t : Z) :
  hd_error (db_trust_metrics (db w)) = Some d ->
  get "id" d = None ->
  get "items" d = Some (VList (map (fun i => VDoc (MetricItem.dict i)) l)) ->
  get "updated_at" d = Some (VDate t) ->
  store_up E (n_store w) = true ->
  get_metrics E w
  = (Ok (TrustMetrics.mk (uuid_str (uuid4_int (urandom E (n_urandom w))))
           l t),
     mkWorld (db w) (S (n_urandom w)) (n_utcnow w) (n_objectid w)
       (S (n_store w)) (trace w ++ [mkEvent trust_metrics FindOne true])).
Proof.
  intros Hd Hi Hl Ht H0. unfold get_metrics, bind.
  rewrite (find_one_up _ _ _ H0). cbv beta iota.
  change (coll trust_metrics (db w)) with (db_trust_metrics (db w)).
  rewrite Hd.
  destruct d as [|kv d']; [discriminate Hl|]. cbv beta iota delta [not_doc].
  rewrite (TrustMetrics_init_without_id _ l t);
    try (rewrite get_pop_other; [assumption|discriminate]).
  unfold logged. simpl. rewrite H0. reflexivity.
Qed.

End RepeatedReads.

(** X9. Seeding happens once.  Starting from an empty [trust_metrics]
    collection, of any number of requests [GET /metrics] in a row (with
    the store answering) the first returns the value it builds and every
    later one returns that value as the store keeps it: the same id and
    items, and updated_at cut to the millisecond.  The collection holds
    that one document at the end, however many reads followed. *)
Theorem get_metrics_idempotent {P : Pydantic} (E : Env) (n : nat)
    (w : World) :
  db_trust_metrics (db w) = [] ->
  store_answers E w (S (S n)) ->
  exists w',
    get_metrics_times E (S n) w
    = (Ok (default_metrics E w)
       :: repeat (Ok (TrustMetrics_stored (default_metrics E w))) n, w') /\
    db_trust_metrics (db w')
    = [("_id", VOid (objectid E (n_objectid w)))
       :: bson_doc (TrustMetrics.dict (default_metrics E w))] /\
    db_status_checks (db w') = db_status_checks (db w).
Proof.
  intros Hempty Hup.
  pose proof (store_answers_first _ _ _ Hup) as H0.
  pose proof (store_answers_second _ _ _ Hup) as H1.
  pose proof (get_metrics_absent E w) as Hfirst.
  rewrite Hempty in Hfirst. specialize (Hfirst eq_refl H0 H1).
  rewrite place_nil in Hfirst.
  match type of Hfirst with _ = (_, ?x) => set (w1 := x) in * end.
  destruct (get_metrics_times_present E
              (("_id", VOid (objectid E (n_objectid w)))
               :: TrustMetrics.dict
                    (TrustMetrics_stored (default_metrics E w)))
              (TrustMetrics_stored (default_metrics E w)) n
              eq_refl eq_refl eq_refl w1)
    as [w' [Hrest Hdb]].
  - reflexivity.
  - intros k Hk. unfold w1. simpl.
    replace (S (S (n_store w + k))) with (n_store w + S (S k)) by lia.
    apply Hup. lia.
  - exists w'. cbn [get_metrics_times]. rewrite Hfirst.
    fold (get_metrics_times E n w1). rewrite Hrest, Hdb.
    split; [reflexivity|]. rewrite bson_TrustMetrics.
    split; reflexivity.
Qed.

Lemma get_metrics_idempotent_witness :
  db_trust_metrics (db empty_world) = [] /\
  store_answers precise empty_world 6 /\
  exists w',
    get_metrics_times (P := strict) precise 5 empty_world
    = (Ok (default_metrics precise empty_world)
       :: repeat (Ok (TrustMetrics_stored
                        (default_metrics precise empty_world))) 4, w') /\
    db_trust_metrics (db w')
    = [("_id", VOid (objectid precise (n_objectid empty_world)))
       :: bson_doc (TrustMetrics.dict
                      (default_metrics precise empty_world))] /\
    db_status_checks (db w') = db_status_checks (db empty_world).
Proof.
  split; [reflexivity|]. split; [intros k _; reflexivity|].
  apply (get_metrics_idempotent (P := strict) precise 4 empty_world);
    [reflexivity|intros k _; reflexivity].
Defined.

(** X10. A found [trust_metrics] document without an [id] is served with
    an id made up for the response and never written back: two requests
    in a row return the stored items and updated_at under the ids of two
    successive draws, and the collections stay as they were. *)
Theorem get_metrics_document_without_id {P : Pydantic} (E : Env)
    (w : World) (d : doc) (l : list MetricItem.t) (t : Z) :
  hd_error (db_trust_metrics (db w)) = Some d ->
  get "id" d = None ->
  get "items" d = Some (VList (map (fun i => VDoc (MetricItem.dict i)) l)) ->
  get "updated_at" d = Some (VDate t) ->
  store_answers E w 2 ->
  exists w1 w2,
    get_metrics E w
    = (Ok (TrustMetrics.mk (uuid_str (uuid4_int (urandom E (n_urandom w))))
             l t), w1) /\
    get_metrics E w1
    = (Ok (TrustMetrics.mk
             (uuid_str (uuid4_int (urandom E (S (n_urandom w))))) l t),
       w2) /\
    db w1 = db w /\ db w2 = db w.
Proof.
  intros Hd Hi Hl Ht Hup.
  pose proof (store_answers_first _ _ _ Hup) as H0.
  pose proof (store_answers_second _ _ _ Hup) as H1.
  pose proof (get_metrics_without_id E w d l t Hd Hi Hl Ht H0) as R1.
  match type of R1 with _ = (_, ?x) => set (w1 := x) in * end.
  pose proof (get_metrics_without_id E w1 d l t Hd Hi Hl Ht H1) as R2.
  match type of R2 with _ = (_, ?x) => set (w2 := x) in * end.
  exists w1, w2. split; [exact R1|]. split; [exact R2|].
  split; reflexivity.
Qed.

Lemma get_metrics_document_without_id_witness :
  hd_error (db_trust_metrics (db world_with_doc_without_id))
  = Some doc_without_id /\
  get "id" doc_without_id = None /\
  store_answers calm world_with_doc_without_id 2 /\
  exists w1 w2,
    get_metrics (P := strict) calm world_with_doc_without_id
    = (Ok (TrustMetrics.mk
             (uuid_str
                (uuid4_int
                   (urandom calm (n_urandom world_with_doc_without_id))))
             (TrustMetrics.items seven_items)
             (TrustMetrics.updated_at seven_items)), w1) /\
    get_metrics (P := strict) calm w1
    = (Ok (TrustMetrics.mk
             (uuid_str
                (uuid4_int
                   (urandom calm (S (n_urandom world_with_doc_without_id)))))
             (TrustMetrics.items seven_items)
             (TrustMetrics.updated_at seven_items)), w2) /\
    db w1 = db world_with_doc_without_id /\
    db w2 = db world_with_doc_without_id.
Proof.
  split; [reflexivity|]. split; [reflexivity|].
  split; [intros k _; reflexivity|].
  apply (get_metrics_document_without_id (P := strict) calm
           world_with_doc_without_id doc_without_id
           (TrustMetrics.items seven_items)
           (TrustMetrics.updated_at seven_items));
    [reflexivity|reflexivity|reflexivity|reflexivity
    |intros k _; reflexivity].
Defined.

(** X11. A found [trust_metrics] document without [items] is not replaced
    by the default: [GET /metrics] raises [ValidationError] and leaves the
    collections as they were, so the default document is never inserted
    behind it. *)
Theorem get_metrics_document_without_items {P : Pydantic} (E : Env)
    (w : World) (d : doc) :
  hd_error (db_trust_metrics (db w)) = Some d ->
  d <> [] ->
  get "items" d = None ->
  store_up E (n_store w) = true ->
  fst (get_metrics E w) = Raise ValidationError /\
  db (snd (get_metrics E w)) = db w /\
  calls (get_metrics E) w = [mkEvent trust_metrics FindOne true].
Proof.
  intros Hd Hne Hl H0.
  assert (Hnot : not_doc (hd_error (db_trust_metrics (db w))) = false).
  { rewrite Hd. destruct d; [contradiction|reflexivity]. }
  split; [|split].
  - rewrite get_metrics_outcome, H0, Hnot, Hd.
    apply TrustMetrics_init_without_items.
    rewrite get_pop_other; [exact Hl|discriminate].
  - destruct (get_metrics_found E w H0 Hnot) as [-> _]. reflexivity.
  - rewrite get_metrics_calls, H0, Hnot. reflexivity.
Qed.

Lemma get_metrics_document_without_items_witness :
  hd_error (db_trust_metrics (db world_with_bare_metrics)) = Some bare_doc /\
  bare_doc <> [] /\
  get "items" bare_doc = None /\
  store_up calm (n_store world_with_bare_metrics) = true /\
  fst (get_metrics (P := strict) calm world_with_bare_metrics)
  = Raise ValidationError /\
  db (snd (get_metrics (P := strict) calm world_with_bare_metrics))
  = db world_with_bare_metrics /\
  calls (get_metrics (P := strict) calm) world_with_bare_metrics
  = [mkEvent trust_metrics FindOne true].
Proof.
  split; [reflexivity|]. split; [discriminate|].
  split; [reflexivity|]. split; [reflexivity|].
  apply (get_metrics_document_without_items (P := strict) calm
           world_with_bare_metrics bare_doc);
    [reflexivity|discriminate|reflexivity|reflexivity].
Defined.

(** *** Several posts, then the list *)

Lemma Permutation_place (back : nat) (d : doc) (l : list doc) :
  Permutation (place back d l) (l ++ [d]).
Proof.
  destruct (place_spec back d l) as [l1 [l2 [-> ->]]].
  apply Permutation_trans with (d :: l1 ++ l2).
  - apply Permutation_sym, Permutation_middle.
  - apply Permutation_cons_append.
Qed.

Lemma forallb_Permutation {A} (f : A -> bool) (l l' : list A) :
  Permutation l l' -> forallb f l' = true -> forallb f l = true.
Proof.
  intros Hp H. apply forallb_forall. intros x Hx.
  apply (proj1 (forallb_forall f l') H).
  apply (Permutation_in x Hp Hx).
Qed.

Lemma map_Some_inj {A} (l l' : list A) : map Some l = map Some l' -> l = l'.
Proof.
  revert l'. induction l as [|a l IH]; intros [|a' l'] H;
    try discriminate; [reflexivity|].
  injection H as -> H. rewrite (IH _ H). reflexivity.
Qed.

Section SeveralPosts.
Context {P : Pydantic} (E : Env).

Lemma post_all_adds (names : list string) :
  forall w,
    store_answers E w (List.length names) ->
    exists docs recs,
      Permutation (db_status_checks (db (post_all E names w)))
                  (db_status_checks (db w) ++ docs) /\
      db_trust_metrics (db (post_all E names w)) = db_trust_metrics (db w) /\
      n_store (post_all E names w) = n_store w + List.length names /\
      Forall2 (fun d s => StatusCheck_of_doc d = Some s) docs recs /\
      map StatusCheck.client_name recs = names.
Proof.
  induction names as [|name names IH]; intros w Hup.
  - exists [], []. simpl. rewrite app_nil_r, Nat.add_0_r.
    repeat split; constructor || apply Permutation_refl.
  - pose proof (store_answers_first _ _ _ Hup) as H0.
    cbn [post_all]. rewrite (handle_POST_status_up E name w H0).
    cbn [snd].
    match goal with
    | |- context [post_all E names ?x] => set (w1 := x)
    end.
    destruct (IH w1) as [docs [recs [Hs [Ht [Hn [Hr Hc]]]]]].
    { apply (store_answers_shift E w); [reflexivity|exact Hup]. }
    exists ((("_id", VOid (objectid E (n_objectid w)))
             :: StatusCheck.dict
                  (StatusCheck_stored (new_status_check E name w))) :: docs),
           (StatusCheck_stored (new_status_check E name w) :: recs).
    rewrite Ht, Hn. unfold w1 in *.
    cbn [db db_status_checks db_trust_metrics n_store List.length map] in *.
    split; [|split; [reflexivity|split; [lia|split]]].
    + apply (Permutation_trans Hs).
      match goal with
      | |- Permutation (place ?b ?x ?l ++ _) _ =>
          apply Permutation_trans with ((l ++ [x]) ++ docs)%list;
            [apply Permutation_app_tail, Permutation_place|]
      end.
      rewrite <- app_assoc. apply Permutation_refl.
    + constructor; [apply StatusCheck_of_stored|exact Hr].
    + rewrite Hc. reflexivity.
Qed.

End SeveralPosts.

(** X12. Every post is listed.  When [status_checks] holds status-check
    documents and, with the new ones, no more than 1000, then after one
    [POST /status] for each of [names], [GET /status] returns, in the
    order the store has them, the records that were there before together
    with one record per post, whose client names are [names]. *)
Theorem posts_are_listed {P : Pydantic} (E : Env) (names : list string)
    (w : World) :
  forallb is_StatusCheck_doc (db_status_checks (db w)) = true ->
  List.length (db_status_checks (db w)) + List.length names <= 1000 ->
  store_answers E w (S (List.length names)) ->
  exists l olds recs w2,
    handle E GET_status (post_all E names w) = (Ok (StatusChecks l), w2) /\
    Permutation l (olds ++ recs) /\
    map Some olds = map StatusCheck_of_doc (db_status_checks (db w)) /\
    map StatusCheck.client_name recs = names.
Proof.
  intros Hdocs Hlen Hup.
  destruct (post_all_adds E names w) as [docs [recs [Hs [_ [Hn [Hr Hc]]]]]].
  { apply (store_answers_fewer E w (S (List.length names))); [lia|exact Hup]. }
  destruct (StatusCheck_docs_read _ Hdocs) as [olds Holds].
  assert (Hall : Forall2 (fun d s => StatusCheck_of_doc d = Some s)
                   (db_status_checks (db w) ++ docs) (olds ++ recs))
    by (apply Forall2_app; assumption).
  assert (Hwf : forallb is_StatusCheck_doc
                  (db_status_checks (db (post_all E names w))) = true).
  { apply (forallb_Permutation _ _ _ Hs). rewrite forallb_app, Hdocs.
    simpl. clear - Hr. induction Hr as [|d s docs recs Hd _ IH];
      [reflexivity|]. simpl. unfold is_StatusCheck_doc at 1.
    rewrite Hd. exact IH. }
  destruct (StatusCheck_docs_read _ Hwf) as [l Hl].
  exists l, olds, recs,
    (logged E status_checks (FindToList 1000) (post_all E names w)).
  split; [|split; [|split; [apply Forall2_read_map; exact Holds|exact Hc]]].
  - unfold handle, bind.
    rewrite (get_status_checks_run E (post_all E names w) l);
      [reflexivity| |].
    + rewrite Hn. apply Hup. lia.
    + rewrite firstn_all2; [exact Hl|].
      rewrite (Permutation_length Hs), length_app, (Forall2_length Hr).
      rewrite <- Hc, length_map in Hlen. lia.
  - assert (Hmap : Permutation (map Some l) (map Some (olds ++ recs))).
    { rewrite (Forall2_read_map _ _ Hl), (Forall2_read_map _ _ Hall).
      apply Permutation_map. exact Hs. }
    destruct (Permutation_map_inv _ _ Hmap) as [l3 [Heq Hp]].
    apply map_Some_inj in Heq. subst l3. apply Permutation_sym. exact Hp.
Qed.

Lemma posts_are_listed_witness :
  forallb is_StatusCheck_doc (db_status_checks (db empty_world)) = true /\
  List.length (db_status_checks (db empty_world))
  + List.length ["acme"; "globex"; "acme"] <= 1000 /\
  store_answers precise empty_world
    (S (List.length ["acme"; "globex"; "acme"])) /\
  exists l olds recs w2,
    handle (P := strict) precise GET_status
      (post_all (P := strict) precise ["acme"; "globex"; "acme"] empty_world)
    = (Ok (StatusChecks l), w2) /\
    Permutation l (olds ++ recs) /\
    map Some olds
    = map StatusCheck_of_doc (db_status_checks (db empty_world)) /\
    map StatusCheck.client_name recs = ["acme"; "globex"; "acme"].
Proof.
  split; [reflexivity|]. split; [simpl; lia|].
  split; [intros k _; reflexivity|].
  apply (posts_are_listed (P := strict) precise ["acme"; "globex"; "acme"]
           empty_world);
    [reflexivity|simpl; lia|intros k _; reflexivity].
Defined.

(** *** Start-up *)

Lemma split_nonempty (sep : ascii) (s : string) : split sep s <> [].
Proof.
  destruct s as [|c s]; simpl; [discriminate|].
  destruct (Ascii.eqb c sep); [discriminate|].
  destruct (split sep s); discriminate.
Qed.

Lemma join_after_empty (sep : ascii) (l : list string) :
  l <> [] ->
  join (String sep "") ("" :: l) = String sep (join (String sep "") l).
Proof. destruct l; [contradiction|reflexivity]. Qed.

Lemma join_under_head (sep : string) (c : ascii) (p : string)
    (l : list string) :
  join sep (String c p :: l) = String c (join sep (p :: l)).
Proof. destruct l; reflexivity. Qed.

(** Joining the pieces with the separator gives the string back. *)
Lemma join_split (sep : ascii) (s : string) :
  join (String sep "") (split sep s) = s.
Proof.
  induction s as [|c s IH]; [reflexivity|]. cbn [split].
  destruct (Ascii.eqb_spec c sep) as [->|Hc].
  - rewrite join_after_empty by apply split_nonempty.
    rewrite IH. reflexivity.
  - destruct (split sep s) as [|p l] eqn:Hs.
    + exfalso. apply (split_nonempty sep s Hs).
    + rewrite join_under_head, IH. reflexivity.
Qed.

(** No piece contains the separator. *)
Lemma split_pieces (sep : ascii) (s : string) :
  Forall (fun p => occurs sep p = false) (split sep s).
Proof.
  induction s as [|c s IH]; simpl; [repeat constructor|].
  destruct (Ascii.eqb c sep) eqn:Hc.
  - constructor; [reflexivity|exact IH].
  - destruct (split sep s) as [|p l]; [repeat constructor; simpl|].
    + rewrite Hc. reflexivity.
    + inversion IH; subst. constructor; [|assumption].
      simpl. rewrite Hc. assumption.
Qed.

(** There is one piece more than there are separators. *)
Lemma length_split (sep : ascii) (s : string) :
  List.length (split sep s) = S (count_char sep s).
Proof.
  induction s as [|c s IH]; simpl; [reflexivity|].
  pose proof (split_nonempty sep s) as Hne.
  destruct (Ascii.eqb c sep); simpl.
  - rewrite IH. reflexivity.
  - destruct (split sep s) as [|p l]; [contradiction|]. exact IH.
Qed.

Example cors_origins_keep_blanks :
  cors_origins production_environ
  = ["https://a.example"; " https://b.example"].
Proof. reflexivity. Qed.

Example cors_origins_of_empty_variable :
  cors_origins [("CORS_ORIGINS", "")] = [""].
Proof. reflexivity. Qed.

(** X13. The list of allowed origins is the value of [CORS_ORIGINS] (or
    ["*"] when it is not set) cut at its commas and nothing else: joined
    by commas the origins give the value back, none of them contains a
    comma, there is one more origin than there are commas, so the list is
    never empty, and without the variable it is the single origin ["*"]. *)
Theorem cors_origins_split (env : environ) :
  join "," (cors_origins env)
  = match environ_get "CORS_ORIGINS" env with
    | Some v => v
    | None => "*"
    end /\
  Forall (fun origin => occurs "," origin = false) (cors_origins env) /\
  List.length (cors_origins env)
  = S (count_char ","
         (match environ_get "CORS_ORIGINS" env with
          | Some v => v
          | None => "*"
          end)) /\
  cors_origins env <> [] /\
  (environ_get "CORS_ORIGINS" env = None -> cors_origins env = ["*"]).
Proof.
  unfold cors_origins.
  split; [apply join_split|]. split; [apply split_pieces|].
  split; [apply length_split|]. split; [apply split_nonempty|].
  intros ->. reflexivity.
Qed.

(** *** The format of generated ids *)

(** A number below 16 is determined by its four lowest bits. *)
Lemma nibble_of_bits (a : N) :
  (a < 16)%N ->
  a = (N.b2n (N.testbit a 0) + 2 * N.b2n (N.testbit a 1)
       + 4 * N.b2n (N.testbit a 2) + 8 * N.b2n (N.testbit a 3))%N.
Proof.
  intros H.
  assert (Hcases : (a = 0 \/ a = 1 \/ a = 2 \/ a = 3 \/ a = 4 \/ a = 5 \/
                    a = 6 \/ a = 7 \/ a = 8 \/ a = 9 \/ a = 10 \/
                    a = 11 \/ a = 12 \/ a = 13 \/ a = 14 \/ a = 15)%N)
    by lia.
  repeat (destruct Hcases as [->|Hcases]; [reflexivity|]).
  subst. reflexivity.
Qed.

Lemma nibble_below_16 (a : N) : (N.land a 15 < 16)%N.
Proof.
  change 15%N with (N.ones 4). rewrite N.land_ones.
  apply N.mod_lt. discriminate.
Qed.

Lemma nibble_bit (a s k : N) :
  (k < 4)%N ->
  N.testbit (N.land (N.shiftr a s) 15) k = N.testbit a (k + s).
Proof.
  intros Hk. rewrite N.land_spec, N.shiftr_spec'.
  change 15%N with (N.ones 4). rewrite N.ones_spec_low by exact Hk.
  apply andb_true_r.
Qed.

Lemma uuid4_int_bit (r : N) (k : N) :
  N.testbit (uuid4_int r) k
  = (((N.testbit (N.land r (N.ones 128)) k
       && negb (N.testbit (N.shiftl 0xc000 48) k)
       || N.testbit (N.shiftl 0x8000 48) k)
      && negb (N.testbit (N.shiftl 0xf000 64) k))
     || N.testbit (N.shiftl 4 76) k)%bool.
Proof.
  unfold uuid4_int. cbv zeta.
  rewrite N.lor_spec, N.ldiff_spec, N.lor_spec, N.ldiff_spec. reflexivity.
Qed.

(** The version nibble of [uuid4] is 4. *)
Lemma uuid4_version (r : N) : N.land (N.shiftr (uuid4_int r) 76) 15 = 4%N.
Proof.
  rewrite (nibble_of_bits _ (nibble_below_16 _)).
  rewrite !nibble_bit by reflexivity.
  rewrite !uuid4_int_bit.
  set (x := N.land r (N.ones 128)).
  change (N.testbit (N.shiftl 4 76) (0 + 76)) with false.
  change (N.testbit (N.shiftl 4 76) (1 + 76)) with false.
  change (N.testbit (N.shiftl 4 76) (2 + 76)) with true.
  change (N.testbit (N.shiftl 4 76) (3 + 76)) with false.
  change (N.testbit (N.shiftl 0xf000 64) (0 + 76)) with true.
  change (N.testbit (N.shiftl 0xf000 64) (1 + 76)) with true.
  change (N.testbit (N.shiftl 0xf000 64) (3 + 76)) with true.
  rewrite !andb_false_r, orb_true_r. reflexivity.
Qed.

(** The variant nibble of [uuid4] is 8, 9, 10 or 11. *)
Lemma uuid4_variant (r : N) :
  exists b0 b1 : bool,
    N.land (N.shiftr (uuid4_int r) 60) 15
    = (N.b2n b0 + 2 * N.b2n b1 + 8)%N.
Proof.
  exists (N.testbit (uuid4_int r) 60), (N.testbit (uuid4_int r) 61).
  rewrite (nibble_of_bits _ (nibble_below_16 _)).
  rewrite !nibble_bit by reflexivity.
  change (0 + 60)%N with 60%N. change (1 + 60)%N with 61%N.
  change (2 + 60)%N with 62%N. change (3 + 60)%N with 63%N.
  rewrite (uuid4_int_bit r 62), (uuid4_int_bit r 63).
  set (x := N.land r (N.ones 128)).
  change (N.testbit (N.shiftl 0xc000 48) 62) with true.
  change (N.testbit (N.shiftl 0x8000 48) 62) with false.
  change (N.testbit (N.shiftl 4 76) 62) with false.
  change (N.testbit (N.shiftl 0x8000 48) 63) with true.
  change (N.testbit (N.shiftl 0xf000 64) 63) with false.
  change (N.testbit (N.shiftl 4 76) 63) with false.
  rewrite andb_false_r, orb_true_r. simpl negb. simpl andb. simpl orb.
  cbn [N.b2n]. lia.
Qed.

(** X14. Every generated id has the shape of a version-4 UUID: 36
    characters, hyphens after the 8th, 12th, 16th and 20th hexadecimal
    digit, the version digit 4, and a variant digit among 8, 9, a, b,
    whatever the 16 random bytes were. *)
Theorem uuid4_str_format (r : N) :
  String.length (uuid_str (uuid4_int r)) = 36 /\
  String.get 8 (uuid_str (uuid4_int r)) = Some "-"%char /\
  String.get 13 (uuid_str (uuid4_int r)) = Some "-"%char /\
  String.get 18 (uuid_str (uuid4_int r)) = Some "-"%char /\
  String.get 23 (uuid_str (uuid4_int r)) = Some "-"%char /\
  String.get 14 (uuid_str (uuid4_int r)) = Some "4"%char /\
  (String.get 19 (uuid_str (uuid4_int r)) = Some "8"%char \/
   String.get 19 (uuid_str (uuid4_int r)) = Some "9"%char \/
   String.get 19 (uuid_str (uuid4_int r)) = Some "a"%char \/
   String.get 19 (uuid_str (uuid4_int r)) = Some "b"%char).
Proof.
  split; [apply length_uuid_str|].
  pose proof (uuid4_version r) as Hver.
  destruct (uuid4_variant r) as [b0 [b1 Hvar]].
  revert Hver Hvar. generalize (uuid4_int r). intros i Hver Hvar.
  unfold uuid_str, hex32.
  cbn [hex_acc substring append String.get].
  repeat (split; [reflexivity|]).
  split.
  - match goal with
    | |- context [N.land ?X 15] =>
        replace X with (N.shiftr i 76)
          by (rewrite ?N.shiftr_shiftr; reflexivity)
    end.
    rewrite Hver. reflexivity.
  - match goal with
    | |- context [N.land ?X 15] =>
        replace X with (N.shiftr i 60)
          by (rewrite ?N.shiftr_shiftr; reflexivity)
    end.
    rewrite Hvar. destruct b0, b1; cbn [N.b2n]; auto.
Qed.
